(** * leetgo: code generation dispatch (package [lang], file [lang/gen.go])

    A shallow embedding of the generator abstraction, the template
    composition of [baseLang], the registry lookup [GetGenerator], the file
    writer [tryWrite] and the dispatch function [Generate], followed by the
    properties of the specification that concern them.

    Go strings are byte strings: they are [string] here.  A Go [error] is a
    value carrying a message: it is its message here.  A Go function that
    returns [(T, error)] and whose value is the zero value whenever the error
    is set returns a [result T].  Ambient state (files on disk, the terminal,
    the persisted state file, the logger, the wall clock) is an explicit
    [World] threaded through every effectful function. *)

From Stdlib Require Import Ascii String List Bool Arith Lia.
From stdpp Require Import base option gmap strings list.

Set Warnings "-register-all".
Set Default Proof Using "Type".

(** ** Go standard library: [strings], [time] *)

(** [strings.ToLower(s)] has two paths.  When every byte of [s] is below
    [utf8.RuneSelf] (128), it lowers the bytes [A-Z] and leaves the others:
    [ToLower_ascii].  Otherwise it returns
    [strings.Map(unicode.ToLower, s)], which decodes [s] as UTF-8 and lowers
    every rune by the tables of package [unicode]. *)
Definition lower_byte (c : ascii) : ascii :=
  let n := nat_of_ascii c in
  if (65 <=? n) && (n <=? 90) then ascii_of_nat (n + 32) else c.

Fixpoint ToLower_ascii (s : string) : string :=
  match s with
  | EmptyString => EmptyString
  | String c s' => String (lower_byte c) (ToLower_ascii s')
  end.

(** Every byte is below 128. *)
Fixpoint is_ascii (s : string) : bool :=
  match s with
  | EmptyString => true
  | String c s' => (nat_of_ascii c <? 128) && is_ascii s'
  end.

(** The first byte of a string is an upper-case ASCII letter. *)
Definition starts_upper (s : string) : Prop :=
  match s with
  | EmptyString => False
  | String c _ => 65 <= nat_of_ascii c <= 90
  end.

(** [strings.Map(unicode.ToLower, s)] on the strings that are not ASCII.
    The tables of package [unicode] are not modelled: the function is taken
    as given, with two facts about it.  It drops no rune, so that a string
    that is not empty stays so; and no rune is lowered to one of [A-Z], so
    that its result does not start with an upper-case ASCII letter. *)
Record UnicodeToLower := mkUnicodeToLower {
  Map_ToLower : string -> string;
  Map_ToLower_nonempty :
    forall s, s <> EmptyString -> Map_ToLower s <> EmptyString;
  Map_ToLower_not_upper : forall s, ~ starts_upper (Map_ToLower s) }.

Definition strings_ToLower (unicode_ToLower : UnicodeToLower) (s : string)
  : string :=
  if is_ascii s then ToLower_ascii s else Map_ToLower unicode_ToLower s.

(** [strings.HasPrefix(s, prefix)] *)
Definition strings_HasPrefix (s pre : string) : bool := String.prefix pre s.

(** [strings.Join(elems, sep)] *)
Definition strings_Join (elems : list string) (sep : string) : string :=
  String.concat sep elems.

(** A broken-down local time, as far as the layout ["2006/01/02 15:04"]
    reads it. *)
Record Time := mkTime {
  year : nat; month : nat; day : nat; hour : nat; minute : nat; second : nat }.

Definition digit (n : nat) : ascii := ascii_of_nat (48 + n mod 10).

Definition pad2 (n : nat) : string :=
  String (digit (n / 10)) (String (digit n) EmptyString).

Definition pad4 (n : nat) : string :=
  String (digit (n / 1000)) (String (digit (n / 100)) (pad2 n)).

(** [t.Format("2006/01/02 15:04")] *)
Definition Time_Format (t : Time) : string :=
  pad4 (year t) +:+ "/" +:+ pad2 (month t) +:+ "/" +:+ pad2 (day t)
    +:+ " " +:+ pad2 (hour t) +:+ ":" +:+ pad2 (minute t).

(** ** Errors and results *)

Definition error := string.

Inductive result (A : Type) :=
| Ok (a : A)
| Err (e : error).
Arguments Ok {A} a.
Arguments Err {A} e.

(** [errors.New("not supported")], [errors.New("not implemented")] *)
Definition NotSupported : error := "not supported".
Definition NotImplemented : error := "not implemented".

(** ** Collaborators outside package [lang] *)

(** Modelled from the spec: the metadata collaborator [leetcode.QuestionData]
    is not part of the sources.  The record holds the two fields that
    [gen.go] reads and, for every method that [gen.go] calls, what the method
    returns on this question. *)
Record QuestionData := mkQuestionData {
  TitleSlug : string;
  QuestionFrontendId : string;
  Difficulty : string;
  Url : string;
  IsContest : bool;
  ContestUrl : string;
  GetTitle : string;
  GetFormattedContent : string;
  GetCodeSnippet : string -> string;
  GetFormattedFilename : string -> string -> result string }.

(** Modelled from the spec: the configuration collaborator [config.Config],
    with the fields and the method [ProjectRoot] that [gen.go] reads. *)
Record CodeConfig := mkCodeConfig {
  Lang : string;
  CodeBeginMark : string;
  CodeEndMark : string;
  FilenameTemplate : string }.

Record Config := mkConfig {
  Author : string;
  Code : CodeConfig;
  ProjectRoot : string }.

(** The [viper] key-value store: a missing key reads as the zero value. *)
Record Viper := mkViper {
  viper_strings : gmap string string;
  viper_bools : gmap string bool }.

Definition viper_GetString (v : Viper) (key : string) : string :=
  default EmptyString (viper_strings v !! key).

Definition viper_GetBool (v : Viper) (key : string) : bool :=
  default false (viper_bools v !! key).

(** Modelled from the spec: the persisted state of [config.LoadState] and
    [config.SaveState] is the single LastGenerated record. *)
Record LastGeneratedQuestion := mkLastGeneratedQuestion {
  LG_Slug : string;
  LG_FrontendID : string;
  LG_Gen : string }.

Record State := mkState { LastGenerated : LastGeneratedQuestion }.

(** ** The world *)

Inductive Level := LevelInfo | LevelError.

Record LogEntry := mkLogEntry {
  log_level : Level;
  log_msg : string;
  log_args : list (string * string) }.

(** What the terminal gives back to one [survey.AskOne] of a confirmation:
    the user's answer, or a failure of the prompt. *)
Inductive PromptReply :=
| Answer (yes : bool)
| PromptFails (e : error).

Record World := mkWorld {
  files : gmap string string;        (* regular files on disk, by path *)
  create_faults : gmap string error; (* paths at which creating fails *)
  write_faults : gmap string error;  (* paths at which writing fails *)
  terminal : list PromptReply;       (* replies to the coming prompts *)
  saved_state : State;               (* the persisted state file *)
  hclog : list LogEntry;             (* the log, oldest entry first *)
  clock : Time }.                    (* what [time.Now()] reads *)

Definition set_files (fs : gmap string string) (w : World) : World :=
  mkWorld fs (create_faults w) (write_faults w) (terminal w)
          (saved_state w) (hclog w) (clock w).

Definition set_terminal (t : list PromptReply) (w : World) : World :=
  mkWorld (files w) (create_faults w) (write_faults w) t
          (saved_state w) (hclog w) (clock w).

Definition set_saved_state (s : State) (w : World) : World :=
  mkWorld (files w) (create_faults w) (write_faults w) (terminal w)
          s (hclog w) (clock w).

Definition add_log (e : LogEntry) (w : World) : World :=
  mkWorld (files w) (create_faults w) (write_faults w) (terminal w)
          (saved_state w) (hclog w ++ [e]) (clock w).

(** The log of [w'] is the log of [w] with further entries after it. *)
Definition log_extends (w w' : World) : Prop :=
  exists extra, hclog w' = hclog w ++ extra.

(** [hclog.L().Error(msg, args...)] and [hclog.L().Info(msg, args...)] *)
Definition hclog_Error (msg : string) (args : list (string * string))
  (w : World) : World := add_log (mkLogEntry LevelError msg args) w.

Definition hclog_Info (msg : string) (args : list (string * string))
  (w : World) : World := add_log (mkLogEntry LevelInfo msg args) w.

(** [utils.IsExist(path)] *)
Definition utils_IsExist (path : string) (w : World) : bool :=
  bool_decide (is_Some (files w !! path)).

(** Modelled from the spec: [utils.CreateIfNotExists(path, false)] creates
    the parent directories and an empty file when nothing is at [path], and
    fails when the filesystem refuses. *)
Definition utils_CreateIfNotExists (path : string) (w : World)
  : option error * World :=
  match files w !! path with
  | Some _ => (None, w)
  | None =>
      match create_faults w !! path with
      | Some e => (Some e, w)
      | None => (None, set_files (<[path := EmptyString]> (files w)) w)
      end
  end.

(** [os.WriteFile(path, content, 0644)] *)
Definition os_WriteFile (path content : string) (w : World)
  : option error * World :=
  match write_faults w !! path with
  | Some e => (Some e, w)
  | None => (None, set_files (<[path := content]> (files w)) w)
  end.

(** [survey.AskOne] of a [survey.Confirm]: reads one reply from the terminal;
    a closed terminal is a failure of the prompt. *)
Definition survey_AskOne_Confirm (message : string) (w : World)
  : result bool * World :=
  match terminal w with
  | [] => (Err "EOF", w)
  | Answer b :: rest => (Ok b, set_terminal rest w)
  | PromptFails e :: rest => (Err e, set_terminal rest w)
  end.

(** [config.LoadState()] and [config.SaveState(state)] *)
Definition config_LoadState (w : World) : State := saved_state w.

Definition config_SaveState (s : State) (w : World) : World :=
  set_saved_state s w.

(** ** Generators *)

(** [Testable]: the optional capability of a generator. *)
Record Testable := mkTestable {
  Testable_CheckLibrary : World -> bool * World;
  Testable_GenerateLibrary : World -> option error * World;
  Testable_RunTest : QuestionData -> World -> option error * World }.

(** [FileOutput], over the type of its back-reference.  [GeneratorRef] is
    the field [Generator] of the source, [None] for Go's nil. *)
Record FileOutput_ (G : Type) := mkFileOutput {
  Path : string;
  Content : string;
  Created : bool;
  GeneratorRef : option G }.
Arguments mkFileOutput {G} _ _ _ _.
Arguments Path {G} _.
Arguments Content {G} _.
Arguments Created {G} _.
Arguments GeneratorRef {G} _.

(** The interface [Generator].  [asTestable] is the type assertion
    [gen.(Testable)]: [None] when the variant does not implement it. *)
Inductive Generator := mkGenerator {
  Generator_Name : string;
  Generator_ShortName : string;
  Generator_Slug : string;
  Generator_Generate :
    QuestionData -> World -> result (list (FileOutput_ Generator)) * World;
  asTestable : option Testable }.

Abbreviation FileOutput := (FileOutput_ Generator).

Record baseLang := mkBaseLang {
  name : string;
  slug : string;
  shortName : string;
  extension : string;
  lineComment : string;
  blockCommentStart : string;
  blockCommentEnd : string }.

Definition baseLang_Name (l : baseLang) : string := name l.
Definition baseLang_Slug (l : baseLang) : string := slug l.
Definition baseLang_ShortName (l : baseLang) : string := shortName l.

Definition Modifier := string -> QuestionData -> string.

(** The newline and the double quote of Go's string literals. *)
Definition nl : string := String (ascii_of_nat 10) EmptyString.
Definition dquote : string := String (ascii_of_nat 34) EmptyString.

(** The calls that the dispatch function makes to the generator, to
    [tryWrite] and to the state store, in the order it makes them.  The
    record is kept by the dispatch function only: a generator, which may do
    to the world what it likes, can neither read nor change it. *)
Inductive Call :=
| CallCheckLibrary
| CallGenerateLibrary
| CallGenerate
| CallTryWrite (path content : string)
| CallSaveState (s : State).

(** The dispatch function runs on a world and the calls made so far; an error
    return leaves both as they are at that point. *)
Definition Dispatch (A : Type) : Type :=
  World * list Call -> result A * (World * list Call).

Definition ret {A} (a : A) : Dispatch A := fun s => (Ok a, s).

Definition fail {A} (e : error) : Dispatch A := fun s => (Err e, s).

Definition bind {A B} (m : Dispatch A) (k : A -> Dispatch B) : Dispatch B :=
  fun s =>
    match m s with
    | (Ok a, s') => k a s'
    | (Err e, s') => (Err e, s')
    end.

(** A call, entered in the record of calls. *)
Definition call {A} (c : Call) (f : World -> A * World) : Dispatch A :=
  fun s => let '(a, w') := f (fst s) in (Ok a, (w', snd s ++ [c])).

(** A read and a write of the world that are not entered in the record. *)
Definition get {A} (f : World -> A) : Dispatch A :=
  fun s => (Ok (f (fst s)), s).

Definition effect (f : World -> World) : Dispatch unit :=
  fun s => (Ok tt, (f (fst s), snd s)).

(** [if err != nil { return nil, err }] *)
Definition try {A} (m : Dispatch (result A)) : Dispatch A :=
  bind m (fun r => match r with Ok a => ret a | Err e => fail e end).

Declare Scope dispatch_scope.
Delimit Scope dispatch_scope with dispatch.
Notation "x <- c1 ;; c2" := (bind c1 (fun x => c2))
  (at level 100, c1 at next level, right associativity) : dispatch_scope.
Notation "c1 ;; c2" := (bind c1 (fun _ => c2))
  (at level 100, right associativity) : dispatch_scope.

Definition set_Path_Generator (path : string) (gen : Generator)
  (f : FileOutput) : FileOutput :=
  mkFileOutput path (Content f) (Created f) (Some gen).

Definition set_Created (b : bool) (f : FileOutput) : FileOutput :=
  mkFileOutput (Path f) (Content f) b (GeneratorRef f).

Definition set_LastGenerated (lg : LastGeneratedQuestion) (s : State) : State :=
  mkState lg.

Section Lang.

(** [config.Get()], the [viper] store, [filepath.Join] of the standard
    library, the Unicode path of [strings.ToLower] and the table
    [SupportedLangs] of registered generators. *)
Variable cfg : Config.
Variable viper : Viper.
Variable filepath_Join : list string -> string.
Variable unicode_ToLower : UnicodeToLower.
Variable SupportedLangs : list Generator.

Definition baseLang_generateComments (l : baseLang) (q : QuestionData)
  (w : World) : string :=
  let now := Time_Format (clock w) in
  let content :=
    [lineComment l +:+ " Created by " +:+ Author cfg +:+ " at " +:+ now]
    ++ [lineComment l +:+ " " +:+ Url q]
    ++ (if IsContest q then [lineComment l +:+ " " +:+ ContestUrl q] else [])
    ++ [EmptyString]
    ++ [blockCommentStart l]
    ++ [QuestionFrontendId q +:+ "." +:+ GetTitle q
          +:+ " (" +:+ Difficulty q +:+ ")"]
    ++ [EmptyString]
    ++ [GetFormattedContent q]
    ++ [blockCommentEnd l]
    ++ [EmptyString] in
  strings_Join content nl.

Definition baseLang_generateCode (l : baseLang) (q : QuestionData)
  (modifiers : list Modifier) : string :=
  fold_left (fun code m => m code q) modifiers
            (GetCodeSnippet q (baseLang_Slug l)).

Definition addCodeMark (commentMark : string) : Modifier :=
  fun s q =>
    commentMark +:+ " " +:+ CodeBeginMark (Code cfg) +:+ nl +:+ nl
      +:+ s +:+ nl +:+ nl
      +:+ commentMark +:+ " " +:+ CodeEndMark (Code cfg).

Definition removeComments : Modifier := fun code q => code.

Definition prepend (s : string) : Modifier := fun code q => s +:+ code.

(** [getFilenameTemplate(gen)] reads of [gen] its slug only: it takes the
    slug. *)
Definition getFilenameTemplate (gen_Slug : string) : string :=
  let res := FilenameTemplate (Code cfg) in
  if negb (String.eqb res EmptyString) then res
  else viper_GetString viper ("code." +:+ gen_Slug +:+ ".filename_template").

Definition baseLang_Generate (l : baseLang) (q : QuestionData) (w : World)
  : result (list FileOutput) * World :=
  let comment := baseLang_generateComments l q w in
  let code := baseLang_generateCode l q [addCodeMark (lineComment l)] in
  let content := comment +:+ nl +:+ code +:+ nl in
  let filenameTmpl := getFilenameTemplate (baseLang_Slug l) in
  match GetFormattedFilename q (slug l) filenameTmpl with
  | Err err => (Err err, w)
  | Ok baseFilename =>
      let files :=
        mkFileOutput (baseFilename +:+ "." +:+ extension l) content false None in
      (Ok [files], w)
  end.

(** A [baseLang] as a value of the interface; it is not [Testable]. *)
Definition baseLang_Generator (l : baseLang) : Generator :=
  mkGenerator (baseLang_Name l) (baseLang_ShortName l) (baseLang_Slug l)
              (baseLang_Generate l) None.

(** The loop of [GetGenerator] over the registered generators. *)
Fixpoint GetGenerator_in (langs : list Generator) (gen : string)
  : option Generator :=
  match langs with
  | [] => None
  | l :: langs' =>
      if strings_HasPrefix (Generator_ShortName l) gen
         || strings_HasPrefix (Generator_Slug l) gen
      then Some l
      else GetGenerator_in langs' gen
  end.

Definition GetGenerator (gen : string) : option Generator :=
  let gen := strings_ToLower unicode_ToLower gen in
  GetGenerator_in SupportedLangs gen.

Definition tryWrite (file content : string) (w : World) : result bool * World :=
  let '(asked, w1) :=
    if utils_IsExist file w then
      if negb (viper_GetBool viper "yes") then
        survey_AskOne_Confirm
          ("File " +:+ dquote +:+ file +:+ dquote +:+ " already exists, overwrite?")
          w
      else (Ok true, w)
    else (Ok true, w) in
  match asked with
  | Err err => (Err err, w1)
  | Ok write =>
      if negb write then (Ok false, w1)
      else
        match utils_CreateIfNotExists file w1 with
        | (Some err, w2) => (Err err, w2)
        | (None, w2) =>
            match os_WriteFile file content w2 with
            | (Some err, w3) => (Err err, w3)
            | (None, w3) => (Ok true, hclog_Info "generated" [("file", file)] w3)
            end
        end
  end.

Open Scope dispatch_scope.

(** Lines 172-177 of [Generate]: the library of a testable generator is
    installed when it is missing. *)
Definition bootstrap (gen : Generator) : Dispatch unit :=
  match asTestable gen with
  | Some t =>
      installed <- call CallCheckLibrary (Testable_CheckLibrary t) ;;
      if negb installed then
        err <- call CallGenerateLibrary (Testable_GenerateLibrary t) ;;
        match err with
        | Some e => fail e
        | None => ret tt
        end
      else ret tt
  | None => ret tt
  end.

(** The body of the loop [for i := range files] of [Generate]. *)
Definition writeAt (gen : Generator) (dir : string) (i : nat)
  (files : list FileOutput) : Dispatch (list FileOutput) :=
  match files !! i with
  | None => ret files
  | Some f =>
      let path := filepath_Join [ProjectRoot cfg; dir; Path f] in
      let f := set_Path_Generator path gen f in
      let files := <[i := f]> files in
      r <- call (CallTryWrite path (Content f)) (tryWrite path (Content f)) ;;
      match r with
      | Err err =>
          effect (hclog_Error "failed to write file"
                              [("path", path); ("err", err)]) ;;
          ret files
      | Ok written => ret (<[i := set_Created written f]> files)
      end
  end.

Fixpoint forRange (body : nat -> list FileOutput -> Dispatch (list FileOutput))
  (indices : list nat) (files : list FileOutput) : Dispatch (list FileOutput) :=
  match indices with
  | [] => ret files
  | i :: indices' => files <- body i files ;; forRange body indices' files
  end.

Definition Generate (q : QuestionData) : Dispatch (list FileOutput) :=
  match GetGenerator (Lang (Code cfg)) with
  | None =>
      fail ("language " +:+ Lang (Code cfg)
              +:+ " is not supported yet, welcome to send a PR")
  | Some gen =>
      let codeSnippet := GetCodeSnippet q (Generator_Slug gen) in
      if String.eqb codeSnippet EmptyString then
        fail ("no " +:+ Lang (Code cfg) +:+ " code snippet found for "
                +:+ TitleSlug q)
      else
        bootstrap gen ;;
        files <- try (call CallGenerate (Generator_Generate gen q)) ;;
        let dir := viper_GetString viper ("code." +:+ Lang (Code cfg) +:+ ".out_dir") in
        let dir := if String.eqb dir EmptyString then Lang (Code cfg) else dir in
        files <- forRange (writeAt gen dir) (seq 0 (length files)) files ;;
        state <- get config_LoadState ;;
        let state :=
          set_LastGenerated
            (mkLastGeneratedQuestion (TitleSlug q) (QuestionFrontendId q)
                                     (Generator_Slug gen)) state in
        call (CallSaveState state) (fun w => (tt, config_SaveState state w)) ;;
        ret files
  end.

Close Scope dispatch_scope.

End Lang.

(** ** The write loop, element by element

    [writeOne] is one turn of the loop of [Generate] as a function of the
    element it visits, and [writeEach] the turns over a whole slice.  They are
    used to state what the loop [forRange (writeAt gen dir)] does, and are
    shown equal to it in [forRange_writeAt]. *)

Section WriteEach.

Variable cfg : Config.
Variable viper : Viper.
Variable filepath_Join : list string -> string.

Open Scope dispatch_scope.

(** The directory below the project root in which [Generate] writes. *)
Definition outDir : string :=
  let dir := viper_GetString viper ("code." +:+ Lang (Code cfg) +:+ ".out_dir") in
  if String.eqb dir EmptyString then Lang (Code cfg) else dir.

(** The absolute path at which [Generate] writes the output [f]. *)
Definition absPath (dir : string) (f : FileOutput) : string :=
  filepath_Join [ProjectRoot cfg; dir; Path f].

(** The calls of [tryWrite] that the loop makes on a slice. *)
Definition writeCalls (dir : string) (files : list FileOutput) : list Call :=
  map (fun f => CallTryWrite (absPath dir f) (Content f)) files.

Definition writeOne (gen : Generator) (dir : string) (f : FileOutput)
  : Dispatch FileOutput :=
  let path := absPath dir f in
  let f1 := set_Path_Generator path gen f in
  r <- call (CallTryWrite path (Content f1)) (tryWrite viper path (Content f1)) ;;
  match r with
  | Err err =>
      effect (hclog_Error "failed to write file" [("path", path); ("err", err)]) ;;
      ret f1
  | Ok written => ret (set_Created written f1)
  end.

Fixpoint writeEach (gen : Generator) (dir : string) (files : list FileOutput)
  : Dispatch (list FileOutput) :=
  match files with
  | [] => ret []
  | f :: rest =>
      f' <- writeOne gen dir f ;;
      rest' <- writeEach gen dir rest ;;
      ret (f' :: rest')
  end.

Close Scope dispatch_scope.

End WriteEach.

(** The [tryWrite] calls of a record of calls, in order. *)
Definition writes_of (calls : list Call) : list (string * string) :=
  flat_map (fun c => match c with
                     | CallTryWrite p c => [(p, c)]
                     | _ => []
                     end) calls.

(** The message of the error that [Generate] returns when no generator
    matches the configured language, and when the question has no snippet. *)
Definition LanguageUnsupported (lang : string) : error :=
  "language " +:+ lang +:+ " is not supported yet, welcome to send a PR".

Definition SnippetMissing (lang titleSlug : string) : error :=
  "no " +:+ lang +:+ " code snippet found for " +:+ titleSlug.

(** The record that [Generate] persists for question [q] and generator
    [gen]. *)
Definition lastGeneratedOf (q : QuestionData) (gen : Generator)
  : LastGeneratedQuestion :=
  mkLastGeneratedQuestion (TitleSlug q) (QuestionFrontendId q)
                          (Generator_Slug gen).

(** Case-insensitive prefix: [pre] is a prefix of [s] up to the case of
    ASCII letters. *)
Definition prefix_fold (unicode_ToLower : UnicodeToLower) (pre s : string)
  : bool :=
  String.prefix (strings_ToLower unicode_ToLower pre)
                (strings_ToLower unicode_ToLower s).

(** A generator whose short name and slug are in lower case. *)
Definition lower_names (unicode_ToLower : UnicodeToLower) (g : Generator)
  : Prop :=
  strings_ToLower
      unicode_ToLower (Generator_ShortName g) = Generator_ShortName g
  /\ strings_ToLower unicode_ToLower (Generator_Slug g) = Generator_Slug g.

(** Two bytes are the same letter: equal, or an upper-case ASCII letter and
    its lower-case form. *)
Definition same_letter (x y : ascii) : bool :=
  let n := nat_of_ascii x in
  let m := nat_of_ascii y in
  (n =? m)
  || ((65 <=? n) && (n <=? 90) && (m =? n + 32))
  || ((65 <=? m) && (m <=? 90) && (n =? m + 32)).

(** Two strings differ by the case of ASCII letters only. *)
Fixpoint differ_by_case (a b : string) : bool :=
  match a, b with
  | EmptyString, EmptyString => true
  | String x a', String y b' => same_letter x y && differ_by_case a' b'
  | _, _ => false
  end.

(** ** A sample project

    A registry of three generators, a question and a few worlds, on which
    the properties below are instantiated. *)

(** A stand-in for the Unicode path of [strings.ToLower]: the bytes [A-Z]
    are lowered and every other byte is left. *)
Definition ex_unicode : UnicodeToLower.
Proof.
  refine (mkUnicodeToLower ToLower_ascii _ _).
  - intros [|c s] H; [contradiction|discriminate].
  - intros [|c s]; [intros []|]. cbn [ToLower_ascii starts_upper].
    unfold lower_byte.
    destruct ((65 <=? nat_of_ascii c) && (nat_of_ascii c <=? 90)) eqn:E.
    + apply andb_true_iff in E as [E1 E2].
      apply Nat.leb_le in E1. apply Nat.leb_le in E2.
      rewrite nat_ascii_embedding by lia. lia.
    + intros [H1 H2]. apply Nat.leb_le in H1. apply Nat.leb_le in H2.
      rewrite H1, H2 in E. discriminate.
Defined.

(** A stand-in for [filepath.Join] on clean relative elements: the elements
    that are not empty, separated by a slash. *)
Definition join_slash (elems : list string) : string :=
  String.concat "/" (List.filter (fun s => negb (String.eqb s EmptyString)) elems).

Definition ex_python : baseLang :=
  mkBaseLang "Python" "python3" "py" "py" "#" "'''" "'''".

Definition ex_golang : baseLang :=
  mkBaseLang "Go" "golang" "go" "go" "//" "/*" "*/".

Definition ex_rust : baseLang :=
  mkBaseLang "Rust" "rust" "rs" "rs" "//" "/*" "*/".

Definition ex_libPath : string := "/p/go/testutils.go".

(** The support library of the Go generator is one file. *)
Definition ex_golang_Testable : Testable :=
  mkTestable
    (fun w => (utils_IsExist ex_libPath w, w))
    (fun w => os_WriteFile ex_libPath "package testutils" w)
    (fun q w => (Some NotImplemented, w)).

(** The Go generator renders the solution as [baseLang] does and adds a test
    file. *)
Definition ex_golang_Generate (cfg : Config) (viper : Viper)
  (q : QuestionData) (w : World) : result (list FileOutput) * World :=
  match baseLang_Generate cfg viper ex_golang q w with
  | (Ok fs, w') =>
      (Ok (fs ++ [mkFileOutput "solution_test.go" "package main" false None]), w')
  | (Err e, w') => (Err e, w')
  end.

Definition ex_golang_Generator (cfg : Config) (viper : Viper) : Generator :=
  mkGenerator "Go" "go" "golang" (ex_golang_Generate cfg viper)
              (Some ex_golang_Testable).

Definition ex_langs (cfg : Config) (viper : Viper) : list Generator :=
  [baseLang_Generator cfg viper ex_python;
   ex_golang_Generator cfg viper;
   baseLang_Generator cfg viper ex_rust].

Definition ex_cfg (lang : string) : Config :=
  mkConfig "me" (mkCodeConfig lang "@lc code=begin" "@lc code=end" EmptyString)
           "/p".

Definition ex_viper : Viper := mkViper ∅ ∅.

(** A question with a snippet for Python and for Go, and none for Rust. *)
Definition ex_question : QuestionData :=
  mkQuestionData "two-sum" "1" "Easy" "https://leetcode.com/problems/two-sum/"
    false EmptyString "Two Sum" "Given an array of integers."
    (fun s => if String.eqb s "python3" then "class Solution: pass"
              else if String.eqb s "golang" then "func twoSum() {}"
              else EmptyString)
    (fun s t => Ok "solution").

Definition ex_state : State :=
  mkState (mkLastGeneratedQuestion "add-two-numbers" "2" "python3").

Definition ex_clock : Time := mkTime 2023 1 5 9 7 3.

(** An empty project, with no one at the terminal. *)
Definition ex_world : World := mkWorld ∅ ∅ ∅ [] ex_state [] ex_clock.


Definition set_write_faults (f : gmap string error) (w : World) : World :=
  mkWorld (files w) (create_faults w) f (terminal w)
          (saved_state w) (hclog w) (clock w).

(** The project once the Go library is installed and the solution of the
    question is written. *)
Definition ex_world_solved : World :=
  set_files (<["/p/go/solution.go" := "package main"]>
               (<[ex_libPath := "package testutils"]> ∅)) ex_world.

(** The solved project with the user at the terminal declining once. *)
Definition ex_world_declining : World :=
  set_terminal [Answer false] ex_world_solved.

(** The solved project with a terminal that breaks at the first prompt. *)
Definition ex_world_interrupted : World :=
  set_terminal [PromptFails "interrupt"] ex_world_solved.

(** A project in which the Go library is installed and the solution file
    cannot be written. *)
Definition ex_world_readonly : World :=
  set_write_faults {["/p/go/solution.go" := "permission denied"]}
    (set_files {[ex_libPath := "package testutils"]} ex_world).

(** An empty project in which the Go library cannot be written. *)
Definition ex_world_nolib : World :=
  set_write_faults {[ex_libPath := "permission denied"]} ex_world.


Definition is_Ok {A} (r : result A) : bool :=
  match r with
  | Ok _ => true
  | Err _ => false
  end.

(** The test of the loop of [GetGenerator] on one generator. *)
Definition matches_ident (gen : string) (l : Generator) : bool :=
  strings_HasPrefix (Generator_ShortName l) gen
  || strings_HasPrefix (Generator_Slug l) gen.

(** ** Package [editor]: the editor [vim] (file [editor/vim.go]) *)

(** A Go call returns or panics. *)
Inductive outcome (A : Type) :=
| Returns (a : A)
| Panics (msg : string).
Arguments Returns {A} a.
Arguments Panics {A} msg.

Section Vim.

(** [config.Get()], and [runCmd(command, args, files...)] of package
    [editor], which is not part of the sources: it starts the command and
    waits for it. *)
Variable cfg : Config.
Variable runCmd :
  string -> list string -> list string -> World -> option error * World.

Definition vim_args (file : FileOutput) : list string :=
  let codeBeginMark := CodeBeginMark (Code cfg) in
  let args := ["-p"] in
  if negb (String.eqb codeBeginMark EmptyString)
  then args ++ ["+/" +:+ codeBeginMark]
  else args.

Definition vim_Open (file : FileOutput) (w : World) : option error * World :=
  let w := hclog_Info "opening files with vim" [] w in
  runCmd "vim" (vim_args file) [Path file] w.

(** The loop [for i, f := range files { paths[i] = f.Path }], from index
    [i] on. *)
Fixpoint vim_fill_paths (i : nat) (files : list FileOutput)
  (paths : list string) : list string :=
  match files with
  | [] => paths
  | f :: files' => vim_fill_paths (S i) files' (<[i := Path f]> paths)
  end.

(** [files[0]] panics on an empty slice, after the log entry and before
    [runCmd] is called. *)
Definition vim_OpenMulti (files : list FileOutput) (w : World)
  : outcome (option error) * World :=
  let paths := replicate (length files) EmptyString in
  let paths := vim_fill_paths 0 files paths in
  let w := hclog_Info "opening files with vim" [] w in
  match files !! 0%nat with
  | None =>
      (Panics "runtime error: index out of range [0] with length 0", w)
  | Some file0 =>
      let '(err, w') := runCmd "vim" (vim_args file0) paths w in
      (Returns err, w')
  end.

End Vim.

(** ** More of the sample project *)

(** A registry in which the C generator stands behind the C++ generator. *)
Definition ex_cpp : baseLang :=
  mkBaseLang "C++" "cpp" "cpp" "cpp" "//" "/*" "*/".

Definition ex_c : baseLang :=
  mkBaseLang "C" "c" "c" "c" "//" "/*" "*/".

(** An identifier that is not ASCII: the Kelvin sign, U+212A, followed by
    [t].  [strings.Map(unicode.ToLower, s)] lowers it to [kt]; the stand-in
    below returns what Go returns on this string. *)
Definition ex_kelvin_t : string :=
  String (ascii_of_nat 226)
    (String (ascii_of_nat 132) (String (ascii_of_nat 170) "t")).

Definition ex_unicode_kt : UnicodeToLower.
Proof.
  refine (mkUnicodeToLower (fun _ => "kt") _ _).
  - intros s _. discriminate.
  - intros s [H1 H2]. vm_compute in H2. lia.
Defined.

Definition ex_kotlin : baseLang :=
  mkBaseLang "Kotlin" "kotlin" "kt" "kt" "//" "/*" "*/".

(** A generator registered under capitalised names. *)
Definition ex_Kotlin : baseLang :=
  mkBaseLang "Kotlin" "Kotlin" "Kt" "kt" "//" "/*" "*/".

(** The store of [viper] with "assume yes" on. *)
Definition ex_viper_yes : Viper := mkViper ∅ {["yes" := true]}.

(** A question whose file name cannot be formatted. *)
Definition ex_question_unnamed : QuestionData :=
  mkQuestionData "two-sum" "1" "Easy" "https://leetcode.com/problems/two-sum/"
    false EmptyString "Two Sum" "Given an array of integers."
    (fun s => "class Solution: pass")
    (fun s t => Err "template: no such field").

(** A stand-in for [runCmd]: the command line is entered in the log. *)
Definition ex_runCmd (command : string) (args files : list string) (w : World)
  : option error * World :=
  (None, hclog_Info "exec" [("cmd", String.concat " " (command :: args ++ files))] w).

(** The log entry of a file that [tryWrite] has written. *)
Definition generatedEntry (file : string) : LogEntry :=
  mkLogEntry LevelInfo "generated" [("file", file)].

(** * Properties *)

Ltac unfold_dispatch :=
  unfold bind, ret, fail, call, get, effect, try in *; simpl in *.

(** ** Strings *)

Lemma prefix_empty (s : string) : String.prefix EmptyString s = true.
Proof. destruct s; reflexivity. Qed.

Lemma lower_byte_idem (c : ascii) : lower_byte (lower_byte c) = lower_byte c.
Proof.
  unfold lower_byte.
  destruct ((65 <=? nat_of_ascii c) && (nat_of_ascii c <=? 90)) eqn:E.
  - apply andb_true_iff in E as [E1 E2].
    apply Nat.leb_le in E1. apply Nat.leb_le in E2.
    rewrite nat_ascii_embedding by lia.
    replace (nat_of_ascii c + 32 <=? 90) with false
      by (symmetry; apply Nat.leb_gt; lia).
    rewrite andb_false_r. reflexivity.
  - rewrite E. reflexivity.
Qed.

Lemma ToLower_idem (s : string) :
  ToLower_ascii (ToLower_ascii s) = ToLower_ascii s.
Proof.
  induction s as [|c s IH]; simpl; [reflexivity|].
  rewrite lower_byte_idem, IH. reflexivity.
Qed.

(** On a string of ASCII bytes [strings.ToLower] takes the byte path. *)
Lemma strings_ToLower_ascii (U : UnicodeToLower) (s : string) :
  is_ascii s = true -> strings_ToLower U s = ToLower_ascii s.
Proof. intros H. unfold strings_ToLower. rewrite H. reflexivity. Qed.

Lemma same_letter_lower (x y : ascii) :
  same_letter x y = true -> lower_byte x = lower_byte y.
Proof.
  unfold same_letter, lower_byte. intros H.
  apply orb_true_iff in H as [H|H]; [apply orb_true_iff in H as [H|H]|].
  - apply Nat.eqb_eq in H.
    assert (x = y) as ->; [|reflexivity].
    rewrite <- (ascii_nat_embedding x), <- (ascii_nat_embedding y), H.
    reflexivity.
  - apply andb_true_iff in H as [H H3]. apply andb_true_iff in H as [H1 H2].
    rewrite H1, H2. cbn [andb].
    apply Nat.eqb_eq in H3. apply Nat.leb_le in H1. apply Nat.leb_le in H2.
    replace (nat_of_ascii y <=? 90) with false
      by (symmetry; apply Nat.leb_gt; lia).
    rewrite andb_false_r, <- H3. apply ascii_nat_embedding.
  - apply andb_true_iff in H as [H H3]. apply andb_true_iff in H as [H1 H2].
    rewrite H1, H2. cbn [andb].
    apply Nat.eqb_eq in H3. apply Nat.leb_le in H1. apply Nat.leb_le in H2.
    replace (nat_of_ascii x <=? 90) with false
      by (symmetry; apply Nat.leb_gt; lia).
    rewrite andb_false_r, <- H3. symmetry. apply ascii_nat_embedding.
Qed.

Lemma same_letter_ascii (x y : ascii) :
  same_letter x y = true ->
  (nat_of_ascii x <? 128) = true -> (nat_of_ascii y <? 128) = true.
Proof.
  unfold same_letter. intros H Hx. apply Nat.ltb_lt in Hx. apply Nat.ltb_lt.
  apply orb_true_iff in H as [H|H]; [apply orb_true_iff in H as [H|H]|].
  - apply Nat.eqb_eq in H. lia.
  - apply andb_true_iff in H as [H H3]. apply andb_true_iff in H as [H1 H2].
    apply Nat.eqb_eq in H3. apply Nat.leb_le in H2. lia.
  - apply andb_true_iff in H as [H H3]. apply andb_true_iff in H as [H1 H2].
    apply Nat.leb_le in H2. lia.
Qed.

(** Strings that differ by the case of ASCII letters lower alike. *)
Lemma differ_by_case_lower (a b : string) :
  differ_by_case a b = true -> ToLower_ascii a = ToLower_ascii b.
Proof.
  revert b. induction a as [|x a IH]; intros [|y b] H; try discriminate;
    [reflexivity|].
  cbn [differ_by_case] in H. apply andb_true_iff in H as [H1 H2].
  cbn [ToLower_ascii]. rewrite (same_letter_lower _ _ H1), (IH _ H2).
  reflexivity.
Qed.

Lemma differ_by_case_ascii (a b : string) :
  differ_by_case a b = true -> is_ascii a = true -> is_ascii b = true.
Proof.
  revert b. induction a as [|x a IH]; intros [|y b] H Ha; try discriminate;
    [reflexivity|].
  cbn [differ_by_case] in H. apply andb_true_iff in H as [H1 H2].
  cbn [is_ascii] in *. apply andb_true_iff in Ha as [Hx Ha].
  rewrite (same_letter_ascii _ _ H1 Hx), (IH _ H2 Ha). reflexivity.
Qed.

Lemma append_assoc (a b c : string) : (a +:+ b) +:+ c = a +:+ (b +:+ c).
Proof.
  induction a as [|x a IH]; [reflexivity|].
  change (String x ((a +:+ b) +:+ c) = String x (a +:+ (b +:+ c))).
  rewrite IH. reflexivity.
Qed.

(** ** The write loop *)

Section LoopFacts.

Variable cfg : Config.
Variable viper : Viper.
Variable filepath_Join : list string -> string.

Local Abbreviation writeAt := (writeAt cfg viper filepath_Join).
Local Abbreviation writeOne := (writeOne cfg viper filepath_Join).
Local Abbreviation writeEach := (writeEach cfg viper filepath_Join).
Local Abbreviation absPath := (absPath cfg filepath_Join).
Local Abbreviation writeCalls := (writeCalls cfg filepath_Join).

Lemma insert_middle {A} (pre : list A) (x y : A) (rest : list A) :
  <[length pre := y]> (pre ++ x :: rest) = pre ++ y :: rest.
Proof.
  replace (length pre) with (length pre + 0)%nat by lia.
  rewrite insert_app_r. reflexivity.
Qed.

(** One turn of the loop at index [length pre] rewrites the element there. *)
Lemma writeAt_middle gen dir (pre : list FileOutput) f rest s :
  writeAt gen dir (length pre) (pre ++ f :: rest) s =
  bind (writeOne gen dir f) (fun f' => ret (pre ++ f' :: rest)) s.
Proof.
  unfold writeAt, writeOne, absPath.
  rewrite list_lookup_middle by reflexivity.
  unfold_dispatch.
  destruct (tryWrite viper _ _ (fst s)) as [[written|err] w'] eqn:E; simpl.
  - rewrite !insert_middle. reflexivity.
  - rewrite insert_middle. reflexivity.
Qed.

(** The loop over the indices of a slice visits its elements in order. *)
Lemma forRange_writeAt_from gen dir (rest pre : list FileOutput) s :
  forRange (writeAt gen dir) (seq (length pre) (length rest)) (pre ++ rest) s =
  bind (writeEach gen dir rest) (fun rest' => ret (pre ++ rest')) s.
Proof.
  revert pre s. induction rest as [|f rest IH]; intros pre s.
  - simpl. unfold_dispatch. reflexivity.
  - cbn [length seq forRange writeEach].
    unfold bind at 1. rewrite writeAt_middle.
    unfold bind, ret.
    destruct (writeOne gen dir f s) as [[f'|e] s1] eqn:E1; [|reflexivity].
    replace (pre ++ f' :: rest) with ((pre ++ [f']) ++ rest)
      by (rewrite <- app_assoc; reflexivity).
    replace (S (length pre)) with (length (pre ++ [f']))
      by (rewrite length_app; simpl; lia).
    rewrite IH. unfold bind.
    destruct (writeEach gen dir rest s1) as [[rest'|e] s2]; [|reflexivity].
    unfold ret. rewrite <- app_assoc. reflexivity.
Qed.

Lemma forRange_writeAt gen dir (files : list FileOutput) s :
  forRange (writeAt gen dir) (seq 0 (length files)) files s =
  writeEach gen dir files s.
Proof.
  pose proof (forRange_writeAt_from gen dir files [] s) as H.
  simpl in H. rewrite H. unfold bind, ret.
  destruct (writeEach gen dir files s) as [[r|e] s']; reflexivity.
Qed.

(** One turn of the loop, by the outcome of [tryWrite]: it never fails, and
    enters one call of [tryWrite] in the record of calls. *)
Lemma writeOne_run gen dir (f : FileOutput) w tr :
  writeOne gen dir f (w, tr) =
  match tryWrite viper (absPath dir f) (Content f) w with
  | (Ok written, w') =>
      (Ok (mkFileOutput (absPath dir f) (Content f) written (Some gen)),
       (w', tr ++ [CallTryWrite (absPath dir f) (Content f)]))
  | (Err err, w') =>
      (Ok (mkFileOutput (absPath dir f) (Content f) (Created f) (Some gen)),
       (hclog_Error "failed to write file"
                    [("path", absPath dir f); ("err", err)] w',
        tr ++ [CallTryWrite (absPath dir f) (Content f)]))
  end.
Proof.
  unfold writeOne. unfold_dispatch.
  destruct (tryWrite viper _ _ w) as [[written|err] w']; reflexivity.
Qed.

Lemma log_extends_refl w : log_extends w w.
Proof. exists []. rewrite app_nil_r. reflexivity. Qed.

Lemma log_extends_trans w1 w2 w3 :
  log_extends w1 w2 -> log_extends w2 w3 -> log_extends w1 w3.
Proof.
  intros [e1 H1] [e2 H2]. exists (e1 ++ e2).
  rewrite H2, H1, app_assoc. reflexivity.
Qed.

Lemma log_extends_add e w : log_extends w (add_log e w).
Proof. exists [e]. reflexivity. Qed.

Lemma log_extends_In e w w' :
  log_extends w w' -> In e (hclog w) -> In e (hclog w').
Proof. intros [extra ->] H. apply in_or_app. left. exact H. Qed.

Lemma tryWrite_log file content w :
  log_extends w (snd (tryWrite viper file content w)).
Proof.
  unfold tryWrite.
  assert (Hask : forall m, log_extends w (snd (survey_AskOne_Confirm m w))).
  { intros m. unfold survey_AskOne_Confirm.
    destruct (terminal w) as [|[b|e] rest]; simpl;
      exists []; simpl; rewrite app_nil_r; reflexivity. }
  set (asked := if utils_IsExist file w then _ else _).
  assert (H1 : log_extends w (snd asked)).
  { subst asked. destruct (utils_IsExist file w); [|apply log_extends_refl].
    destruct (negb _); [apply Hask|apply log_extends_refl]. }
  destruct asked as [[write|err] w1]; simpl in *; [|exact H1].
  destruct write; simpl; [|exact H1].
  unfold utils_CreateIfNotExists, os_WriteFile.
  destruct (files w1 !! file); simpl.
  - destruct (write_faults w1 !! file); simpl; [exact H1|].
    eapply log_extends_trans; [exact H1|].
    exists [mkLogEntry LevelInfo "generated" [("file", file)]]. reflexivity.
  - destruct (create_faults w1 !! file); simpl; [exact H1|].
    destruct (write_faults w1 !! file); simpl.
    + eapply log_extends_trans; [exact H1|].
      exists []; simpl; rewrite app_nil_r; reflexivity.
    + eapply log_extends_trans; [exact H1|].
      exists [mkLogEntry LevelInfo "generated" [("file", file)]]. reflexivity.
Qed.

(** The loop never fails; it calls [tryWrite] once for every element, in the
    order of the slice, whatever the earlier calls returned; the log grows. *)
Lemma writeEach_run gen dir (files : list FileOutput) w tr :
  exists files' w',
    writeEach gen dir files (w, tr) = (Ok files', (w', tr ++ writeCalls dir files))
    /\ length files' = length files
    /\ log_extends w w'.
Proof.
  revert w tr. induction files as [|f rest IH]; intros w tr.
  - exists [], w. simpl. unfold ret. rewrite app_nil_r.
    split; [reflexivity|]. split; [reflexivity|apply log_extends_refl].
  - cbn [writeEach]. unfold bind at 1. rewrite writeOne_run.
    pose proof (tryWrite_log (absPath dir f) (Content f) w) as Hlog.
    destruct (tryWrite viper _ _ w) as [[written|err] w1]; simpl in Hlog.
    + destruct (IH w1 (tr ++ [CallTryWrite (absPath dir f) (Content f)]))
        as (rest' & w' & Hrun & Hlen & Hext).
      eexists (_ :: rest'), w'. unfold bind, ret. rewrite Hrun.
      split; [|split].
      * simpl. rewrite <- app_assoc. reflexivity.
      * simpl. rewrite Hlen. reflexivity.
      * eapply log_extends_trans; eassumption.
    + destruct (IH (hclog_Error "failed to write file"
                      [("path", absPath dir f); ("err", err)] w1)
                   (tr ++ [CallTryWrite (absPath dir f) (Content f)]))
        as (rest' & w' & Hrun & Hlen & Hext).
      eexists (_ :: rest'), w'. unfold bind, ret. rewrite Hrun.
      split; [|split].
      * simpl. rewrite <- app_assoc. reflexivity.
      * simpl. rewrite Hlen. reflexivity.
      * eapply log_extends_trans; [exact Hlog|].
        eapply log_extends_trans; [apply log_extends_add|exact Hext].
Qed.

(** The loop over a slice in two parts. *)
Lemma writeEach_app gen dir (pre post : list FileOutput) s :
  writeEach gen dir (pre ++ post) s =
  bind (writeEach gen dir pre)
       (fun pre' => bind (writeEach gen dir post)
                         (fun post' => ret (pre' ++ post'))) s.
Proof.
  revert s. induction pre as [|f pre IH]; intros s.
  - simpl. unfold bind, ret.
    destruct (writeEach gen dir post s) as [[r|e] s']; reflexivity.
  - cbn [app writeEach]. unfold bind at 1 3 4.
    destruct (writeOne gen dir f s) as [[f'|e] s1]; [|reflexivity].
    unfold bind at 1 3. rewrite IH. unfold bind, ret.
    destruct (writeEach gen dir pre s1) as [[pre'|e] s2]; [|reflexivity].
    destruct (writeEach gen dir post s2) as [[post'|e] s3]; reflexivity.
Qed.

End LoopFacts.

(** ** The dispatch function *)

Section DispatchFacts.

Variable cfg : Config.
Variable viper : Viper.
Variable filepath_Join : list string -> string.
Variable unicode_ToLower : UnicodeToLower.
Variable SupportedLangs : list Generator.

Local Abbreviation GetGenerator := (GetGenerator
    unicode_ToLower SupportedLangs).
Local Abbreviation Generate := (Generate cfg viper filepath_Join
    unicode_ToLower SupportedLangs).
Local Abbreviation tryWrite := (tryWrite viper).
Local Abbreviation writeEach := (writeEach cfg viper filepath_Join).
Local Abbreviation absPath := (absPath cfg filepath_Join).
Local Abbreviation writeCalls := (writeCalls cfg filepath_Join).
Local Abbreviation outDir := (outDir cfg viper).
Local Abbreviation lang := (Lang (Code cfg)).

(** The outcome of [bootstrap]: at most one [CheckLibrary] followed by at
    most one [GenerateLibrary]; a failure is the failure of
    [GenerateLibrary]. *)
Lemma bootstrap_run gen w tr :
  exists r w' calls,
    bootstrap gen (w, tr) = (r, (w', tr ++ calls))
    /\ (calls = [] \/ calls = [CallCheckLibrary]
        \/ calls = [CallCheckLibrary; CallGenerateLibrary])
    /\ (forall e, r = Err e -> calls = [CallCheckLibrary; CallGenerateLibrary]).
Proof.
  unfold bootstrap. destruct (asTestable gen) as [t|].
  - unfold_dispatch.
    destruct (Testable_CheckLibrary t w) as [installed w1].
    destruct installed; simpl.
    + exists (Ok tt), w1, [CallCheckLibrary].
      split; [reflexivity|]. split; [tauto|]. intros e H; discriminate.
    + destruct (Testable_GenerateLibrary t w1) as [[e|] w2]; simpl.
      * exists (Err e), w2, [CallCheckLibrary; CallGenerateLibrary].
        rewrite <- app_assoc. split; [reflexivity|]. split; [tauto|]. reflexivity.
      * exists (Ok tt), w2, [CallCheckLibrary; CallGenerateLibrary].
        rewrite <- app_assoc. split; [reflexivity|]. split; [tauto|].
        intros e H; discriminate.
  - exists (Ok tt), w, []. unfold ret. rewrite app_nil_r.
    split; [reflexivity|]. split; [tauto|]. intros e H; discriminate.
Qed.

(** [Generate] once the generator is resolved and has a snippet for the
    question: the bootstrap, the generator's [Generate], the write loop over
    every output, then the state. *)
Lemma Generate_resolved q gen s :
  GetGenerator lang = Some gen ->
  GetCodeSnippet q (Generator_Slug gen) <> EmptyString ->
  Generate q s =
  match bootstrap gen s with
  | (Err e, s1) => (Err e, s1)
  | (Ok _, (w1, tr1)) =>
      match Generator_Generate gen q w1 with
      | (Err e, w2) => (Err e, (w2, tr1 ++ [CallGenerate]))
      | (Ok files, w2) =>
          match writeEach gen outDir files (w2, tr1 ++ [CallGenerate]) with
          | (Err e, s3) => (Err e, s3)
          | (Ok files', (w3, tr3)) =>
              (Ok files',
               (config_SaveState (mkState (lastGeneratedOf q gen)) w3,
                tr3 ++ [CallSaveState (mkState (lastGeneratedOf q gen))]))
          end
      end
  end.
Proof.
  intros Hgen Hsnip. unfold Generate. rewrite Hgen.
  apply String.eqb_neq in Hsnip. rewrite Hsnip.
  unfold bind at 1.
  destruct (bootstrap gen s) as [[[]|e] [w1 tr1]]; [|reflexivity].
  unfold bind at 1. unfold try, call, bind at 1. cbn [fst snd].
  destruct (Generator_Generate gen q w1) as [[files|e] w2]; [|reflexivity].
  unfold ret at 1. unfold bind at 1.
  rewrite forRange_writeAt. fold outDir.
  destruct (writeEach gen outDir files (w2, tr1 ++ [CallGenerate]))
    as [[files'|e] [w3 tr3]]; [|reflexivity].
  reflexivity.
Qed.

(** *** Resolution *)

Lemma GetGenerator_in_find langs ident :
  GetGenerator_in langs ident = find (matches_ident ident) langs.
Proof.
  induction langs as [|l langs IH]; simpl; [reflexivity|].
  unfold matches_ident at 1. rewrite IH. reflexivity.
Qed.

Lemma GetGenerator_in_first langs ident :
  match GetGenerator_in langs ident with
  | Some g =>
      exists pre post,
        langs = pre ++ g :: post
        /\ matches_ident ident g = true
        /\ Forall (fun l => matches_ident ident l = false) pre
  | None => Forall (fun l => matches_ident ident l = false) langs
  end.
Proof.
  induction langs as [|l langs IH]; simpl; [constructor|].
  fold (matches_ident ident l).
  destruct (matches_ident ident l) eqn:E.
  - exists [], langs. split; [reflexivity|]. split; [exact E|constructor].
  - destruct (GetGenerator_in langs ident) as [g|].
    + destruct IH as (pre & post & -> & Hm & Hpre).
      exists (l :: pre), post. split; [reflexivity|].
      split; [exact Hm|]. constructor; assumption.
    + constructor; assumption.
Qed.

Lemma Generate_unsupported q s :
  GetGenerator lang = None ->
  Generate q s = (Err (LanguageUnsupported lang), s).
Proof. intros H. unfold Generate. rewrite H. reflexivity. Qed.

Lemma Generate_no_snippet q gen s :
  GetGenerator lang = Some gen ->
  GetCodeSnippet q (Generator_Slug gen) = EmptyString ->
  Generate q s = (Err (SnippetMissing lang (TitleSlug q)), s).
Proof. intros H1 H2. unfold Generate. rewrite H1, H2. reflexivity. Qed.

(** When the generator is resolved and has a snippet, [Generate] calls a
    collaborator. *)
Lemma Generate_resolved_calls q gen w tr :
  GetGenerator lang = Some gen ->
  GetCodeSnippet q (Generator_Slug gen) <> EmptyString ->
  exists c calls, snd (snd (Generate q (w, tr))) = tr ++ c :: calls.
Proof.
  intros Hgen Hsnip. rewrite (Generate_resolved q gen _ Hgen Hsnip).
  destruct (bootstrap_run gen w tr) as (r & w1 & calls1 & Hrun & Hcalls & Herr).
  rewrite Hrun. destruct r as [[]|e].
  - destruct (Generator_Generate gen q w1) as [[files|e] w2].
    + destruct (writeEach_run cfg viper filepath_Join gen outDir files w2
                  ((tr ++ calls1) ++ [CallGenerate]))
        as (files' & w3 & Hw & _ & _).
      rewrite Hw. cbn [snd].
      destruct calls1 as [|c calls1].
      * exists CallGenerate. eexists.
        rewrite app_nil_r, <- !app_assoc. reflexivity.
      * exists c. eexists. rewrite <- !app_assoc. reflexivity.
    + cbn [snd]. destruct calls1 as [|c calls1].
      * exists CallGenerate, []. rewrite app_nil_r. reflexivity.
      * exists c. eexists. rewrite <- !app_assoc. reflexivity.
  - cbn [snd]. rewrite (Herr e eq_refl).
    exists CallCheckLibrary, [CallGenerateLibrary]. reflexivity.
Qed.

(** C1. When the question has no starter snippet for the slug of the
    resolved generator, [Generate] returns the SnippetMissing error; it has
    called no collaborator (no [tryWrite], no [SaveState]) and the world is
    the one it started in: no file is written and the persisted state,
    hence its LastGenerated record, is unchanged. *)
Theorem Generate_snippet_missing q gen w :
  GetGenerator lang = Some gen ->
  GetCodeSnippet q (Generator_Slug gen) = EmptyString ->
  Generate q (w, []) = (Err (SnippetMissing lang (TitleSlug q)), (w, []))
  /\ files (fst (snd (Generate q (w, [])))) = files w
  /\ saved_state (fst (snd (Generate q (w, [])))) = saved_state w
  /\ writes_of (snd (snd (Generate q (w, [])))) = [].
Proof.
  intros H1 H2. rewrite (Generate_no_snippet q gen _ H1 H2).
  repeat split; reflexivity.
Qed.

(** C5. For every identifier, ASCII or not, resolution lowers the
    identifier with [strings.ToLower] and returns the first generator, in
    the order of registration, whose short name or slug has the lowered
    identifier as a prefix.  It is case-insensitive in the identifier:
    identifiers that lower alike resolve alike, and so do ASCII identifiers
    that differ by the case of their letters only, whatever the registry.
    On a registry of lower-case names this is the first match of the
    case-insensitive prefix test on both sides.  When no registered
    generator matches, resolution returns nothing and [Generate] fails with
    the LanguageUnsupported error that names the configured identifier, in
    the state it was called in. *)
Theorem GetGenerator_first_match (ident : string) :
  match GetGenerator ident with
  | Some g =>
      exists pre post,
        SupportedLangs = pre ++ g :: post
        /\ matches_ident (strings_ToLower unicode_ToLower ident) g = true
        /\ Forall (fun l => matches_ident (strings_ToLower
            unicode_ToLower ident) l
                            = false) pre
  | None =>
      Forall (fun l => matches_ident (strings_ToLower unicode_ToLower ident) l
                       = false)
             SupportedLangs
  end
  /\ (forall ident',
        strings_ToLower unicode_ToLower ident'
        = strings_ToLower unicode_ToLower ident ->
        GetGenerator ident' = GetGenerator ident)
  /\ (Forall (lower_names unicode_ToLower) SupportedLangs ->
      GetGenerator ident =
      find (fun l => prefix_fold unicode_ToLower ident (Generator_ShortName l)
                     || prefix_fold unicode_ToLower ident (Generator_Slug l))
           SupportedLangs)
  /\ (lang = ident ->
      GetGenerator ident = None ->
      forall q s, Generate q s = (Err (LanguageUnsupported ident), s))
  /\ (forall ident',
        is_ascii ident = true ->
        differ_by_case ident ident' = true ->
        GetGenerator ident' = GetGenerator ident).
Proof.
  split; [apply GetGenerator_in_first|].
  split; [intros ident' H; unfold GetGenerator; rewrite H; reflexivity|].
  split; [|split].
  - intros Hlow. unfold GetGenerator. rewrite GetGenerator_in_find.
    induction Hlow as [|l langs [Hs Hg] _ IH]; simpl; [reflexivity|].
    unfold matches_ident at 1, strings_HasPrefix, prefix_fold.
    rewrite Hs, Hg, IH. reflexivity.
  - intros <- Hnone q s. apply Generate_unsupported. exact Hnone.
  - intros ident' Hascii Hcase. unfold GetGenerator.
    rewrite (strings_ToLower_ascii _ ident Hascii).
    rewrite (strings_ToLower_ascii _ ident'
               (differ_by_case_ascii _ _ Hcase Hascii)).
    rewrite (differ_by_case_lower _ _ Hcase). reflexivity.
Qed.

(** C10. The empty identifier resolves to the first registered generator:
    resolution of the empty identifier is the head of the registry, so on a
    registry that is not empty it never reports not-found, and [Generate]
    with an empty configured language does not end in the
    LanguageUnsupported failure but goes on with that generator: it fails
    with SnippetMissing when the question has no snippet for the slug of
    the head generator, and otherwise runs the bootstrap of the head
    generator, its [Generate], the write loop over its outputs and saves
    the LastGenerated record with its slug. *)
Theorem GetGenerator_empty_identifier :
  GetGenerator EmptyString = head SupportedLangs
  /\ forall l rest,
      SupportedLangs = l :: rest ->
      GetGenerator EmptyString = Some l
      /\ (lang = EmptyString ->
          forall q w,
            Generate q (w, []) <> (Err (LanguageUnsupported EmptyString), (w, [])))
      /\ (lang = EmptyString ->
          forall q s,
            Generate q s =
            if String.eqb (GetCodeSnippet q (Generator_Slug l)) EmptyString
            then (Err (SnippetMissing EmptyString (TitleSlug q)), s)
            else
              match bootstrap l s with
              | (Err e, s1) => (Err e, s1)
              | (Ok _, (w1, tr1)) =>
                  match Generator_Generate l q w1 with
                  | (Err e, w2) => (Err e, (w2, tr1 ++ [CallGenerate]))
                  | (Ok files, w2) =>
                      match writeEach l outDir files (w2, tr1 ++ [CallGenerate])
                      with
                      | (Err e, s3) => (Err e, s3)
                      | (Ok files', (w3, tr3)) =>
                          (Ok files',
                           (config_SaveState (mkState (lastGeneratedOf q l)) w3,
                            tr3 ++ [CallSaveState (mkState (lastGeneratedOf q l))]))
                      end
                  end
              end).
Proof.
  assert (Hhead : GetGenerator EmptyString = head SupportedLangs).
  { unfold GetGenerator. simpl. destruct SupportedLangs as [|l rest]; simpl;
      [reflexivity|].
    unfold strings_HasPrefix. rewrite !prefix_empty. reflexivity. }
  split; [exact Hhead|].
  intros l rest Hreg.
  assert (Hl : GetGenerator EmptyString = Some l)
    by (rewrite Hhead, Hreg; reflexivity).
  split; [exact Hl|]. split.
  - intros Hlang q w Heq.
    destruct (String.eqb (GetCodeSnippet q (Generator_Slug l)) EmptyString)
      eqn:E.
    + apply String.eqb_eq in E.
      rewrite (Generate_no_snippet q l (w, [])) in Heq
        by (rewrite ?Hlang; assumption).
      rewrite Hlang in Heq. inversion Heq.
    + apply String.eqb_neq in E.
      destruct (Generate_resolved_calls q l w []) as (c & calls & Hc);
        [rewrite Hlang; assumption|assumption|].
      rewrite Heq in Hc. simpl in Hc. discriminate.
  - intros Hlang q s.
    assert (Hgen : GetGenerator lang = Some l) by (rewrite Hlang; exact Hl).
    destruct (String.eqb (GetCodeSnippet q (Generator_Slug l)) EmptyString)
      eqn:E.
    + apply String.eqb_eq in E.
      rewrite (Generate_no_snippet q l s Hgen E), Hlang. reflexivity.
    + apply String.eqb_neq in E.
      exact (Generate_resolved q l s Hgen E).
Qed.

(** *** The write phase *)

Lemma writes_of_app (a b : list Call) :
  writes_of (a ++ b) = writes_of a ++ writes_of b.
Proof. unfold writes_of. apply flat_map_app. Qed.

Lemma writes_of_writeCalls dir (fs : list FileOutput) :
  writes_of (writeCalls dir fs) = map (fun f => (absPath dir f, Content f)) fs.
Proof.
  induction fs as [|f fs IH]; simpl; [reflexivity|].
  f_equal. exact IH.
Qed.

Lemma writes_of_bootstrap gen w r w' calls :
  bootstrap gen (w, []) = (r, (w', calls)) -> writes_of calls = [].
Proof.
  intros H. destruct (bootstrap_run gen w []) as (r0 & w0 & c0 & Hrun & Hc & _).
  rewrite Hrun in H. inversion H; subst.
  destruct Hc as [->|[->| ->]]; reflexivity.
Qed.

(** [Generate] once the generator has returned its outputs: it returns
    success, having called [tryWrite] on every output in order and saved the
    state. *)
Lemma Generate_write_phase q gen w0 tr0 w1 tr1 fs w2 :
  GetGenerator lang = Some gen ->
  GetCodeSnippet q (Generator_Slug gen) <> EmptyString ->
  bootstrap gen (w0, tr0) = (Ok tt, (w1, tr1)) ->
  Generator_Generate gen q w1 = (Ok fs, w2) ->
  exists fs' w3,
    writeEach gen outDir fs (w2, tr1 ++ [CallGenerate]) =
      (Ok fs', (w3, (tr1 ++ [CallGenerate]) ++ writeCalls outDir fs))
    /\ length fs' = length fs
    /\ log_extends w2 w3
    /\ Generate q (w0, tr0) =
       (Ok fs',
        (config_SaveState (mkState (lastGeneratedOf q gen)) w3,
         ((tr1 ++ [CallGenerate]) ++ writeCalls outDir fs)
           ++ [CallSaveState (mkState (lastGeneratedOf q gen))])).
Proof.
  intros Hgen Hsnip Hboot Hfs.
  destruct (writeEach_run cfg viper filepath_Join gen outDir fs w2
              (tr1 ++ [CallGenerate])) as (fs' & w3 & Hw & Hlen & Hlog).
  exists fs', w3. split; [exact Hw|]. split; [exact Hlen|].
  split; [exact Hlog|].
  rewrite (Generate_resolved q gen _ Hgen Hsnip), Hboot, Hfs, Hw. reflexivity.
Qed.

(** The write loop when the write of one output fails: the failure is
    logged, the output keeps its flag, and the loop goes on. *)
Lemma writeEach_failed gen dir (pre : list FileOutput) f post w tr pre' w3 tr3 err w4 :
  writeEach gen dir pre (w, tr) = (Ok pre', (w3, tr3)) ->
  tryWrite (absPath dir f) (Content f) w3 = (Err err, w4) ->
  exists post' w5,
    writeEach gen dir (pre ++ f :: post) (w, tr) =
      (Ok (pre' ++ mkFileOutput (absPath dir f) (Content f) (Created f) (Some gen)
                :: post'),
       (w5, tr ++ writeCalls dir (pre ++ f :: post)))
    /\ length post' = length post
    /\ In (mkLogEntry LevelError "failed to write file"
                      [("path", absPath dir f); ("err", err)]) (hclog w5).
Proof.
  intros Hpre Hfail.
  destruct (writeEach_run cfg viper filepath_Join gen dir pre w tr)
    as (pre0 & w30 & Hpre0 & _ & _).
  rewrite Hpre in Hpre0. injection Hpre0 as <- <- Htr3.
  set (w4' := hclog_Error "failed to write file"
                [("path", absPath dir f); ("err", err)] w4).
  destruct (writeEach_run cfg viper filepath_Join gen dir post w4'
              (tr3 ++ [CallTryWrite (absPath dir f) (Content f)]))
    as (post' & w5 & Hpost & Hlen & Hlog).
  exists post', w5. split; [|split; [exact Hlen|]].
  - rewrite writeEach_app. unfold bind at 1. rewrite Hpre.
    cbn [writeEach]. unfold bind at 1 2.
    rewrite writeOne_run, Hfail. fold w4'. unfold bind at 1.
    rewrite Hpost. unfold ret. f_equal. f_equal.
    rewrite Htr3. unfold writeCalls.
    rewrite map_app, <- !app_assoc. reflexivity.
  - eapply log_extends_In; [exact Hlog|].
    subst w4'. simpl. apply in_or_app. right. left. reflexivity.
Qed.

(** [Generate] when the write of one output fails, whatever the failure. *)
Lemma Generate_failed_write q gen w0 w1 tr1 pre f post w2 pre' w3 tr3 err w4 :
  GetGenerator lang = Some gen ->
  GetCodeSnippet q (Generator_Slug gen) <> EmptyString ->
  bootstrap gen (w0, []) = (Ok tt, (w1, tr1)) ->
  Generator_Generate gen q w1 = (Ok (pre ++ f :: post), w2) ->
  writeEach gen outDir pre (w2, tr1 ++ [CallGenerate]) = (Ok pre', (w3, tr3)) ->
  tryWrite (absPath outDir f) (Content f) w3 = (Err err, w4) ->
  exists post' w5 calls,
    Generate q (w0, []) =
      (Ok (pre' ++ mkFileOutput (absPath outDir f) (Content f) (Created f)
                                (Some gen) :: post'),
       (w5, calls))
    /\ length post' = length post
    /\ In (mkLogEntry LevelError "failed to write file"
                      [("path", absPath outDir f); ("err", err)]) (hclog w5)
    /\ writes_of calls =
       map (fun f => (absPath outDir f, Content f)) (pre ++ f :: post)
    /\ saved_state w5 = mkState (lastGeneratedOf q gen).
Proof.
  intros Hgen Hsnip Hboot Hfs Hpre Hfail.
  destruct (writeEach_failed gen outDir pre f post _ _ _ _ _ _ _ Hpre Hfail)
    as (post' & w5 & Hrun & Hlen & Hin).
  destruct (Generate_write_phase q gen _ _ _ _ _ _ Hgen Hsnip Hboot Hfs)
    as (fs' & w3' & Hw & _ & _ & HG).
  rewrite Hrun in Hw. injection Hw as <- <-.
  eexists post', _, _. split; [exact HG|]. split; [exact Hlen|].
  split; [exact Hin|]. split; [|reflexivity].
  rewrite !writes_of_app, writes_of_writeCalls.
  rewrite (writes_of_bootstrap _ _ _ _ _ Hboot). simpl.
  rewrite app_nil_r. reflexivity.
Qed.

(** *** The file writer *)

Lemma survey_AskOne_Confirm_files m w :
  files (snd (survey_AskOne_Confirm m w)) = files w.
Proof.
  unfold survey_AskOne_Confirm.
  destruct (terminal w) as [|[b|e] rest]; reflexivity.
Qed.

(** [tryWrite] on an existing file, without "assume yes", when the prompt
    fails: the failure of the prompt is returned and nothing is written. *)
Lemma tryWrite_prompt_fails file content w err w' :
  viper_GetBool viper "yes" = false ->
  is_Some (files w !! file) ->
  survey_AskOne_Confirm
    ("File " +:+ dquote +:+ file +:+ dquote +:+ " already exists, overwrite?") w
    = (Err err, w') ->
  tryWrite file content w = (Err err, w') /\ files w' = files w.
Proof.
  intros Hyes Hex Hask. split.
  - unfold tryWrite, utils_IsExist.
    rewrite bool_decide_eq_true_2 by exact Hex.
    rewrite Hyes. cbn [negb]. rewrite Hask. reflexivity.
  - pose proof (survey_AskOne_Confirm_files
                  ("File " +:+ dquote +:+ file +:+ dquote
                     +:+ " already exists, overwrite?") w) as H.
    rewrite Hask in H. exact H.
Qed.

(** With "assume yes", an existing file is overwritten without a prompt. *)
Lemma tryWrite_assume_yes file content w :
  viper_GetBool viper "yes" = true ->
  is_Some (files w !! file) ->
  write_faults w !! file = None ->
  tryWrite file content w =
  (Ok true,
   hclog_Info "generated" [("file", file)]
              (set_files (<[file := content]> (files w)) w)).
Proof.
  intros Hyes [old Hold] Hw. unfold tryWrite, utils_IsExist.
  rewrite bool_decide_eq_true_2 by (exists old; exact Hold).
  rewrite Hyes. cbn [negb]. unfold utils_CreateIfNotExists. rewrite Hold.
  unfold os_WriteFile. rewrite Hw. reflexivity.
Qed.

(** A file that does not exist is written without a prompt; a refusal of
    the filesystem is returned as the error of [tryWrite]. *)
Lemma tryWrite_new_file file content w :
  files w !! file = None ->
  tryWrite file content w =
  match create_faults w !! file with
  | Some e => (Err e, w)
  | None =>
      match write_faults w !! file with
      | Some e => (Err e, set_files (<[file := EmptyString]> (files w)) w)
      | None =>
          (Ok true,
           hclog_Info "generated" [("file", file)]
             (set_files (<[file := content]> (<[file := EmptyString]> (files w)))
                        w))
      end
  end.
Proof.
  intros Hnone. unfold tryWrite, utils_IsExist.
  rewrite bool_decide_eq_false_2
    by (intros [x Hx]; rewrite Hnone in Hx; discriminate).
  cbn [negb]. unfold utils_CreateIfNotExists. rewrite Hnone.
  destruct (create_faults w !! file); [reflexivity|].
  unfold os_WriteFile. cbn [write_faults set_files files].
  destruct (write_faults w !! file); reflexivity.
Qed.

(** C7. Without "assume yes", on a file that exists, when the user declines
    the confirmation: [tryWrite] returns created = false and no error, and
    writes nothing: the files on disk, the log and the persisted state are
    as before; only the user's reply has been read. *)
Theorem tryWrite_declined file content w rest :
  viper_GetBool viper "yes" = false ->
  is_Some (files w !! file) ->
  terminal w = Answer false :: rest ->
  tryWrite file content w = (Ok false, set_terminal rest w)
  /\ files (snd (tryWrite file content w)) = files w
  /\ files (snd (tryWrite file content w)) !! file = files w !! file.
Proof.
  intros Hyes Hex Hterm.
  assert (H : tryWrite file content w = (Ok false, set_terminal rest w)).
  { unfold tryWrite, utils_IsExist.
    rewrite bool_decide_eq_true_2 by exact Hex.
    rewrite Hyes. cbn [negb]. unfold survey_AskOne_Confirm. rewrite Hterm.
    reflexivity. }
  rewrite H. repeat split; reflexivity.
Qed.

(** C3, as the code has it.  When the confirmation prompt fails, [tryWrite]
    returns the failure and writes nothing; [Generate] does not abort: it
    logs the failure as a failed write, leaves the flag of that output as
    the generator set it, calls [tryWrite] on every output of the batch in
    order, saves the LastGenerated record and returns success. *)
Theorem prompt_failure_is_skipped
  q gen w0 w1 tr1 pre f post w2 pre' w3 tr3 err w4 :
  GetGenerator lang = Some gen ->
  GetCodeSnippet q (Generator_Slug gen) <> EmptyString ->
  bootstrap gen (w0, []) = (Ok tt, (w1, tr1)) ->
  Generator_Generate gen q w1 = (Ok (pre ++ f :: post), w2) ->
  writeEach gen outDir pre (w2, tr1 ++ [CallGenerate]) = (Ok pre', (w3, tr3)) ->
  viper_GetBool viper "yes" = false ->
  is_Some (files w3 !! absPath outDir f) ->
  survey_AskOne_Confirm
    ("File " +:+ dquote +:+ absPath outDir f +:+ dquote
       +:+ " already exists, overwrite?") w3 = (Err err, w4) ->
  tryWrite (absPath outDir f) (Content f) w3 = (Err err, w4)
  /\ files w4 = files w3
  /\ exists post' w5 calls,
      Generate q (w0, []) =
        (Ok (pre' ++ mkFileOutput (absPath outDir f) (Content f) (Created f)
                                  (Some gen) :: post'),
         (w5, calls))
      /\ length post' = length post
      /\ In (mkLogEntry LevelError "failed to write file"
                        [("path", absPath outDir f); ("err", err)]) (hclog w5)
      /\ writes_of calls =
         map (fun f => (absPath outDir f, Content f)) (pre ++ f :: post)
      /\ saved_state w5 = mkState (lastGeneratedOf q gen).
Proof.
  intros Hgen Hsnip Hboot Hfs Hpre Hyes Hex Hask.
  destruct (tryWrite_prompt_fails _ (Content f) _ _ _ Hyes Hex Hask)
    as [Hfail Hfiles].
  split; [exact Hfail|]. split; [exact Hfiles|].
  exact (Generate_failed_write q gen _ _ _ _ _ _ _ _ _ _ _ _
           Hgen Hsnip Hboot Hfs Hpre Hfail).
Qed.

(** C4. For a resolved generator that is testable and whose [CheckLibrary]
    reports the library missing: [Generate] calls [GenerateLibrary] once,
    right after [CheckLibrary] and before the generator's [Generate].  When
    [GenerateLibrary] fails, its error is returned, the generator's
    [Generate] is not called and no output is produced or written; when it
    succeeds, the generator's [Generate] is called next, once, and
    [GenerateLibrary] is not called again. *)
Theorem bootstrap_before_generate q gen t w w1 :
  GetGenerator lang = Some gen ->
  GetCodeSnippet q (Generator_Slug gen) <> EmptyString ->
  asTestable gen = Some t ->
  Testable_CheckLibrary t w = (false, w1) ->
  (forall e w2,
      Testable_GenerateLibrary t w1 = (Some e, w2) ->
      Generate q (w, []) =
        (Err e, (w2, [CallCheckLibrary; CallGenerateLibrary])))
  /\ (forall w2,
        Testable_GenerateLibrary t w1 = (None, w2) ->
        exists r w' rest,
          Generate q (w, []) =
            (r, (w', [CallCheckLibrary; CallGenerateLibrary; CallGenerate]
                       ++ rest))
          /\ ~ In CallGenerateLibrary rest
          /\ ~ In CallGenerate rest
          /\ (forall e w3, Generator_Generate gen q w2 = (Err e, w3) ->
                           r = Err e /\ w' = w3 /\ rest = [])).
Proof.
  intros Hgen Hsnip Ht Hcheck. split.
  - intros e w2 Hlib.
    rewrite (Generate_resolved q gen _ Hgen Hsnip).
    unfold bootstrap. rewrite Ht. unfold_dispatch.
    rewrite Hcheck. cbn. rewrite Hlib. reflexivity.
  - intros w2 Hlib.
    assert (Hboot : bootstrap gen (w, []) =
                    (Ok tt, (w2, [CallCheckLibrary; CallGenerateLibrary]))).
    { unfold bootstrap. rewrite Ht. unfold_dispatch.
      rewrite Hcheck. cbn. rewrite Hlib. reflexivity. }
    destruct (Generator_Generate gen q w2) as [[fs|e] w3] eqn:Hfs.
    + destruct (Generate_write_phase q gen _ _ _ _ _ _ Hgen Hsnip Hboot Hfs)
        as (fs' & w4 & _ & _ & _ & HG).
      eexists _, _, (writeCalls outDir fs ++ [CallSaveState _]).
      split; [rewrite HG; reflexivity|].
      assert (Hno : forall c, (forall p x, c <> CallTryWrite p x) ->
                              (forall st, c <> CallSaveState st) ->
                              ~ In c (writeCalls outDir fs ++
                                      [CallSaveState (mkState (lastGeneratedOf q gen))])).
      { intros c Hw Hs Hin. apply in_app_or in Hin as [Hin|[Hin|[]]].
        - unfold writeCalls in Hin. apply in_map_iff in Hin as (x & Hx & _).
          exact (Hw _ _ (eq_sym Hx)).
        - exact (Hs _ (eq_sym Hin)). }
      split; [apply Hno; intros; discriminate|].
      split; [apply Hno; intros; discriminate|].
      intros e w5 H; discriminate.
    + exists (Err e), w3, [].
      split.
      { rewrite (Generate_resolved q gen _ Hgen Hsnip), Hboot, Hfs.
        reflexivity. }
      split; [intros []|]. split; [intros []|].
      intros e' w5 H. injection H as <- <-. repeat split; reflexivity.
Qed.

(** C8. When, in the write phase, [tryWrite] fails on one output: the
    failure is logged with the path and the error, the output keeps the
    flag the generator gave it (false when it was false), [tryWrite] is
    called on every output of the batch in their order, and [Generate]
    returns success with as many outputs as the generator produced. *)
Theorem write_failure_is_skipped
  q gen w0 w1 tr1 pre f post w2 pre' w3 tr3 err w4 :
  GetGenerator lang = Some gen ->
  GetCodeSnippet q (Generator_Slug gen) <> EmptyString ->
  bootstrap gen (w0, []) = (Ok tt, (w1, tr1)) ->
  Generator_Generate gen q w1 = (Ok (pre ++ f :: post), w2) ->
  writeEach gen outDir pre (w2, tr1 ++ [CallGenerate]) = (Ok pre', (w3, tr3)) ->
  tryWrite (absPath outDir f) (Content f) w3 = (Err err, w4) ->
  exists f' post' w5 calls,
    Generate q (w0, []) = (Ok (pre' ++ f' :: post'), (w5, calls))
    /\ length pre' = length pre
    /\ length post' = length post
    /\ Created f' = Created f
    /\ (Created f = false -> Created f' = false)
    /\ Path f' = absPath outDir f
    /\ In (mkLogEntry LevelError "failed to write file"
                      [("path", absPath outDir f); ("err", err)]) (hclog w5)
    /\ writes_of calls =
       map (fun f => (absPath outDir f, Content f)) (pre ++ f :: post).
Proof.
  intros Hgen Hsnip Hboot Hfs Hpre Hfail.
  destruct (Generate_failed_write q gen _ _ _ _ _ _ _ _ _ _ _ _
              Hgen Hsnip Hboot Hfs Hpre Hfail)
    as (post' & w5 & calls & HG & Hlen & Hin & Hwrites & _).
  destruct (writeEach_run cfg viper filepath_Join gen outDir pre w2
              (tr1 ++ [CallGenerate])) as (pre0 & w30 & Hpre0 & Hlen0 & _).
  rewrite Hpre in Hpre0. injection Hpre0 as <- <- _.
  eexists _, post', w5, calls. split; [exact HG|].
  split; [exact Hlen0|]. split; [exact Hlen|].
  split; [reflexivity|]. split; [intros H; exact H|].
  split; [reflexivity|]. split; [exact Hin|exact Hwrites].
Qed.

(** C9. Whenever the generator's [Generate] has returned its outputs,
    [Generate] returns success and the persisted state holds the record of
    the question's slug, its frontend id and the generator's slug, saved by
    the last call it makes, whatever happened to the writes. *)
Theorem last_generated_persisted q gen w0 w1 tr1 fs w2 :
  GetGenerator lang = Some gen ->
  GetCodeSnippet q (Generator_Slug gen) <> EmptyString ->
  bootstrap gen (w0, []) = (Ok tt, (w1, tr1)) ->
  Generator_Generate gen q w1 = (Ok fs, w2) ->
  exists fs' w' calls,
    Generate q (w0, []) =
      (Ok fs', (w', calls ++ [CallSaveState (mkState (lastGeneratedOf q gen))]))
    /\ length fs' = length fs
    /\ saved_state w' = mkState (lastGeneratedOf q gen)
    /\ LastGenerated (saved_state w') =
       mkLastGeneratedQuestion (TitleSlug q) (QuestionFrontendId q)
                               (Generator_Slug gen)
    /\ (forall st, ~ In (CallSaveState st) calls).
Proof.
  intros Hgen Hsnip Hboot Hfs.
  destruct (Generate_write_phase q gen _ _ _ _ _ _ Hgen Hsnip Hboot Hfs)
    as (fs' & w3 & _ & Hlen & _ & HG).
  eexists fs', _, _. split; [exact HG|]. split; [exact Hlen|].
  split; [reflexivity|]. split; [reflexivity|].
  intros st Hin.
  destruct (bootstrap_run gen w0 []) as (r0 & w10 & c0 & Hrun & Hc & _).
  rewrite Hboot in Hrun. injection Hrun as _ Htr. simpl in Htr. subst tr1.
  apply in_app_or in Hin as [Hin|Hin].
  - apply in_app_or in Hin as [Hin|[Hin|[]]]; [|discriminate].
    destruct Hc as [->|[->| ->]]; simpl in Hin; intuition discriminate.
  - unfold writeCalls in Hin. apply in_map_iff in Hin as (x & Hx & _).
    discriminate.
Qed.

End DispatchFacts.

(** ** The template composer of [baseLang] *)

Lemma append_nil_r (s : string) : s +:+ EmptyString = s.
Proof.
  induction s as [|c s IH]; [reflexivity|].
  change (String c (s +:+ EmptyString) = String c s). rewrite IH. reflexivity.
Qed.

Lemma concat_cons (sep x y : string) (l : list string) :
  String.concat sep (x :: y :: l) = x +:+ sep +:+ String.concat sep (y :: l).
Proof. reflexivity. Qed.

(** Joining lines of which the last is empty ends the text with the
    separator: the line before last is followed by exactly one separator. *)
Lemma Join_closing (xs : list string) (e sep : string) :
  strings_Join (xs ++ [e; EmptyString]) sep =
  strings_Join (xs ++ [EmptyString]) sep +:+ e +:+ sep.
Proof.
  unfold strings_Join. induction xs as [|x xs IH].
  - simpl. rewrite append_nil_r. reflexivity.
  - destruct xs as [|y xs].
    + cbn [app]. rewrite !concat_cons. cbn [String.concat].
      rewrite !append_nil_r, append_assoc. reflexivity.
    + cbn [app] in *. rewrite (concat_cons sep x y), IH.
      rewrite (concat_cons sep x y), !append_assoc. reflexivity.
Qed.

Section ComposerFacts.

Variable cfg : Config.
Variable viper : Viper.

Local Abbreviation baseLang_generateComments := (baseLang_generateComments cfg).
Local Abbreviation addCodeMark := (addCodeMark cfg).
Local Abbreviation baseLang_Generate := (baseLang_Generate cfg viper).

(** The header ends with the closer of the block comment and one newline. *)
Lemma generateComments_closing l q w :
  exists head,
    baseLang_generateComments l q w = head +:+ blockCommentEnd l +:+ nl.
Proof.
  unfold baseLang_generateComments.
  set (xs :=
    [lineComment l +:+ " Created by " +:+ Author cfg +:+ " at "
       +:+ Time_Format (clock w);
     lineComment l +:+ " " +:+ Url q]
    ++ (if IsContest q then [lineComment l +:+ " " +:+ ContestUrl q] else [])
    ++ [EmptyString; blockCommentStart l;
        QuestionFrontendId q +:+ "." +:+ GetTitle q
          +:+ " (" +:+ Difficulty q +:+ ")";
        EmptyString; GetFormattedContent q]).
  exists (strings_Join (xs ++ [EmptyString]) nl).
  rewrite <- Join_closing. f_equal. subst xs.
  destruct (IsContest q); reflexivity.
Qed.

(** The code block of [baseLang.Generate]: the snippet between the two
    marker lines, each set off by one empty line. *)
Lemma generateCode_marked l q :
  baseLang_generateCode l q [addCodeMark (lineComment l)] =
  lineComment l +:+ " " +:+ CodeBeginMark (Code cfg) +:+ nl +:+ nl
    +:+ GetCodeSnippet q (slug l) +:+ nl +:+ nl
    +:+ lineComment l +:+ " " +:+ CodeEndMark (Code cfg).
Proof. reflexivity. Qed.

(** C6. Every output of [baseLang.Generate] has the content
    header + newline + code + newline.  The header ends with the closer of
    the block comment followed by one newline, so that exactly one empty
    line stands between the closer and the first line of the code, and the
    file ends with the newline appended after the code. *)
Theorem baseLang_Generate_content l q w fs w' :
  baseLang_Generate l q w = (Ok fs, w') ->
  exists baseFilename head,
    fs = [mkFileOutput (baseFilename +:+ "." +:+ extension l)
            (baseLang_generateComments l q w +:+ nl
               +:+ baseLang_generateCode l q [addCodeMark (lineComment l)]
               +:+ nl)
            false None]
    /\ (forall f, In f fs ->
          Content f =
          baseLang_generateComments l q w +:+ nl
            +:+ baseLang_generateCode l q [addCodeMark (lineComment l)] +:+ nl)
    /\ baseLang_generateComments l q w = head +:+ blockCommentEnd l +:+ nl
    /\ (forall f, In f fs ->
          Content f =
          head +:+ blockCommentEnd l +:+ nl +:+ nl
            +:+ lineComment l +:+ " " +:+ CodeBeginMark (Code cfg) +:+ nl +:+ nl
            +:+ GetCodeSnippet q (slug l) +:+ nl +:+ nl
            +:+ lineComment l +:+ " " +:+ CodeEndMark (Code cfg) +:+ nl).
Proof.
  intros H. unfold baseLang_Generate in H.
  destruct (GetFormattedFilename q (slug l) _) as [base|e]; [|discriminate].
  injection H as <- <-.
  destruct (generateComments_closing l q w) as [head Hhead].
  exists base, head. split; [reflexivity|].
  split; [intros f [<-|[]]; reflexivity|].
  split; [exact Hhead|].
  intros f [<-|[]]. cbn [Content].
  rewrite Hhead, generateCode_marked, !append_assoc. reflexivity.
Qed.


End ComposerFacts.

(** * The properties on the sample project *)

(** The scenario of the specification: ["py"] resolves to the Python
    generator, and the one output is written below the project root with
    the snippet between the two markers. *)
Example Generate_python_example :
  Generate (ex_cfg "py") ex_viper join_slash
      ex_unicode (ex_langs (ex_cfg "py") ex_viper)
           ex_question (ex_world, [])
  = (Ok [mkFileOutput "/p/py/solution.py"
           (String.concat nl
              ["# Created by me at 2023/01/05 09:07";
               "# https://leetcode.com/problems/two-sum/";
               "";
               "'''";
               "1.Two Sum (Easy)";
               "";
               "Given an array of integers.";
               "'''";
               "";
               "# @lc code=begin";
               "";
               "class Solution: pass";
               "";
               "# @lc code=end";
               ""])
           true
           (Some (baseLang_Generator (ex_cfg "py") ex_viper ex_python))],
     (config_SaveState
        (mkState (mkLastGeneratedQuestion "two-sum" "1" "python3"))
        (hclog_Info "generated" [("file", "/p/py/solution.py")]
           (set_files {["/p/py/solution.py" :=
              String.concat nl
                ["# Created by me at 2023/01/05 09:07";
                 "# https://leetcode.com/problems/two-sum/";
                 "";
                 "'''";
                 "1.Two Sum (Easy)";
                 "";
                 "Given an array of integers.";
                 "'''";
                 "";
                 "# @lc code=begin";
                 "";
                 "class Solution: pass";
                 "";
                 "# @lc code=end";
                 ""]]} ex_world)),
      [CallGenerate;
       CallTryWrite "/p/py/solution.py"
         (String.concat nl
            ["# Created by me at 2023/01/05 09:07";
             "# https://leetcode.com/problems/two-sum/";
             "";
             "'''";
             "1.Two Sum (Easy)";
             "";
             "Given an array of integers.";
             "'''";
             "";
             "# @lc code=begin";
             "";
             "class Solution: pass";
             "";
             "# @lc code=end";
             ""]);
       CallSaveState
         (mkState (mkLastGeneratedQuestion "two-sum" "1" "python3"))])).
Proof. vm_compute. reflexivity. Qed.

(** Resolution on the sample registry: by short name, by a prefix of the
    slug, in any case; ["g"] is the Go generator, the first that matches. *)
Example GetGenerator_examples :
  let langs := ex_langs (ex_cfg "py") ex_viper in
  option_map Generator_Slug (GetGenerator
      ex_unicode langs "py") = Some "python3"
  /\ option_map Generator_Slug (GetGenerator
      ex_unicode langs "PYTHON") = Some "python3"
  /\ option_map Generator_Slug (GetGenerator
      ex_unicode langs "Go") = Some "golang"
  /\ option_map Generator_Slug (GetGenerator
      ex_unicode langs "rs") = Some "rust"
  /\ option_map Generator_Slug (GetGenerator ex_unicode langs "r") = Some "rust"
  /\ option_map Generator_Slug (GetGenerator
      ex_unicode langs "") = Some "python3"
  /\ option_map Generator_Slug (GetGenerator ex_unicode langs "python2") = None.
Proof. vm_compute. repeat split; reflexivity. Qed.

(** An identifier that is not ASCII is lowered by the Unicode path: the
    Kelvin sign followed by [t] resolves to Kotlin. *)
Example GetGenerator_kelvin_example :
  is_ascii ex_kelvin_t = false
  /\ option_map Generator_Slug
       (GetGenerator ex_unicode_kt
          [baseLang_Generator (ex_cfg "kt") ex_viper ex_kotlin] ex_kelvin_t)
     = Some "kotlin".
Proof. vm_compute. split; reflexivity. Qed.

(** C1 on the sample project: Rust is registered and the question has no
    Rust snippet. *)
Lemma Generate_snippet_missing_witness :
  Generate (ex_cfg "rust") ex_viper join_slash
      ex_unicode (ex_langs (ex_cfg "rust") ex_viper)
           ex_question (ex_world_solved, [])
  = (Err (SnippetMissing "rust" "two-sum"), (ex_world_solved, []))
  /\ files (fst (snd (Generate (ex_cfg "rust") ex_viper join_slash ex_unicode
                               (ex_langs (ex_cfg "rust") ex_viper)
                               ex_question (ex_world_solved, []))))
     = files ex_world_solved
  /\ saved_state (fst (snd (Generate (ex_cfg "rust") ex_viper join_slash
      ex_unicode
                               (ex_langs (ex_cfg "rust") ex_viper)
                               ex_question (ex_world_solved, []))))
     = ex_state
  /\ writes_of (snd (snd (Generate (ex_cfg "rust") ex_viper join_slash
      ex_unicode
                               (ex_langs (ex_cfg "rust") ex_viper)
                               ex_question (ex_world_solved, []))))
     = [].
Proof.
  apply (Generate_snippet_missing (ex_cfg "rust") ex_viper join_slash ex_unicode
           (ex_langs (ex_cfg "rust") ex_viper) ex_question
           (baseLang_Generator (ex_cfg "rust") ex_viper ex_rust)
           ex_world_solved).
  - reflexivity.
  - reflexivity.
Defined.

(** C5 on the sample project: ["PY"] resolves as the case-insensitive prefix
    test does, to the Python generator; ["pY"] resolves as ["Py"] does; and
    ["Ruby"] is not supported. *)
Lemma GetGenerator_first_match_witness :
  GetGenerator ex_unicode (ex_langs (ex_cfg "PY") ex_viper) "PY"
  = Some (baseLang_Generator (ex_cfg "PY") ex_viper ex_python)
  /\ GetGenerator ex_unicode (ex_langs (ex_cfg "PY") ex_viper) "pY"
     = GetGenerator ex_unicode (ex_langs (ex_cfg "PY") ex_viper) "Py"
  /\ forall s,
      Generate (ex_cfg "Ruby") ex_viper join_slash ex_unicode
               (ex_langs (ex_cfg "Ruby") ex_viper) ex_question s
      = (Err (LanguageUnsupported "Ruby"), s).
Proof.
  split; [|split].
  - destruct (GetGenerator_first_match (ex_cfg "PY") ex_viper join_slash
                ex_unicode (ex_langs (ex_cfg "PY") ex_viper) "PY")
      as (_ & _ & H & _).
    rewrite H; [reflexivity|].
    repeat constructor.
  - destruct (GetGenerator_first_match (ex_cfg "PY") ex_viper join_slash
                ex_unicode (ex_langs (ex_cfg "PY") ex_viper) "Py")
      as (_ & _ & _ & _ & H).
    apply H; reflexivity.
  - destruct (GetGenerator_first_match (ex_cfg "Ruby") ex_viper join_slash
                ex_unicode (ex_langs (ex_cfg "Ruby") ex_viper) "Ruby")
      as (_ & _ & _ & H & _).
    intros s. apply H; reflexivity.
Defined.

(** C10 on the sample project: an empty configured language selects
    Python, the first registered generator, and [Generate] goes on with it:
    the Python solution is written and the record names Python. *)
Lemma GetGenerator_empty_identifier_witness :
  GetGenerator ex_unicode (ex_langs (ex_cfg EmptyString) ex_viper) EmptyString
  = Some (baseLang_Generator (ex_cfg EmptyString) ex_viper ex_python)
  /\ Generate (ex_cfg EmptyString) ex_viper join_slash ex_unicode
              (ex_langs (ex_cfg EmptyString) ex_viper) ex_question (ex_world, [])
     <> (Err (LanguageUnsupported EmptyString), (ex_world, []))
  /\ exists fs' w' calls,
      Generate (ex_cfg EmptyString) ex_viper join_slash ex_unicode
               (ex_langs (ex_cfg EmptyString) ex_viper) ex_question
               (ex_world, [])
      = (Ok fs', (w', calls))
      /\ map Path fs' = ["/p/solution.py"]
      /\ map Created fs' = [true]
      /\ LastGenerated (saved_state w')
         = mkLastGeneratedQuestion "two-sum" "1" "python3".
Proof.
  destruct (GetGenerator_empty_identifier (ex_cfg EmptyString) ex_viper
              join_slash ex_unicode (ex_langs (ex_cfg EmptyString) ex_viper))
    as [_ H].
  destruct (H (baseLang_Generator (ex_cfg EmptyString) ex_viper ex_python)
              [ex_golang_Generator (ex_cfg EmptyString) ex_viper;
               baseLang_Generator (ex_cfg EmptyString) ex_viper ex_rust]
              eq_refl) as (H1 & H2 & H3).
  split; [exact H1|]. split; [apply H2; reflexivity|].
  eexists _, _, _. split; [rewrite (H3 eq_refl); reflexivity|].
  repeat split; reflexivity.
Defined.

(** C7 on the sample project: the solution exists and the user declines. *)
Lemma tryWrite_declined_witness :
  tryWrite ex_viper "/p/go/solution.go" "package other" ex_world_declining
  = (Ok false, ex_world_solved)
  /\ files (snd (tryWrite ex_viper "/p/go/solution.go" "package other"
                          ex_world_declining))
       !! "/p/go/solution.go" = Some "package main".
Proof.
  destruct (tryWrite_declined ex_viper "/p/go/solution.go" "package other"
              ex_world_declining []) as (H1 & H2 & H3).
  - reflexivity.
  - exists "package main". reflexivity.
  - reflexivity.
  - split; [exact H1|]. rewrite H3. reflexivity.
Defined.

(** C4 on the sample project: the Go library is missing.  Where it cannot
    be written, [Generate] stops after [GenerateLibrary]; in the empty
    project the generator's [Generate] follows. *)
Lemma bootstrap_before_generate_witness :
  Generate (ex_cfg "go") ex_viper join_slash
      ex_unicode (ex_langs (ex_cfg "go") ex_viper)
           ex_question (ex_world_nolib, [])
  = (Err "permission denied",
     (ex_world_nolib, [CallCheckLibrary; CallGenerateLibrary]))
  /\ exists r w' rest,
      Generate (ex_cfg "go") ex_viper join_slash ex_unicode
               (ex_langs (ex_cfg "go") ex_viper) ex_question (ex_world, [])
      = (r, (w', [CallCheckLibrary; CallGenerateLibrary; CallGenerate] ++ rest))
      /\ ~ In CallGenerateLibrary rest
      /\ ~ In CallGenerate rest.
Proof.
  assert (Hgen : GetGenerator
      ex_unicode (ex_langs (ex_cfg "go") ex_viper) (Lang (Code (ex_cfg "go")))
                 = Some (ex_golang_Generator (ex_cfg "go") ex_viper))
    by reflexivity.
  assert (Hsnip : GetCodeSnippet ex_question
                    (Generator_Slug (ex_golang_Generator (ex_cfg "go") ex_viper))
                  <> EmptyString) by discriminate.
  split.
  - destruct (bootstrap_before_generate (ex_cfg "go") ex_viper join_slash
      ex_unicode
                (ex_langs (ex_cfg "go") ex_viper) ex_question
                (ex_golang_Generator (ex_cfg "go") ex_viper)
                ex_golang_Testable ex_world_nolib ex_world_nolib
                Hgen Hsnip eq_refl eq_refl) as [H _].
    apply H. reflexivity.
  - destruct (bootstrap_before_generate (ex_cfg "go") ex_viper join_slash
      ex_unicode
                (ex_langs (ex_cfg "go") ex_viper) ex_question
                (ex_golang_Generator (ex_cfg "go") ex_viper)
                ex_golang_Testable ex_world ex_world
                Hgen Hsnip eq_refl eq_refl) as [_ H].
    destruct (H (set_files (<[ex_libPath := "package testutils"]> ∅) ex_world)
                eq_refl) as (r & w' & rest & HG & H1 & H2 & _).
    exists r, w', rest. split; [exact HG|]. split; assumption.
Defined.

(** C8 on the sample project: the solution file cannot be written; the
    test file, its sibling, is still written. *)
Lemma write_failure_is_skipped_witness :
  exists f' post' w5 calls,
    Generate (ex_cfg "go") ex_viper join_slash
        ex_unicode (ex_langs (ex_cfg "go") ex_viper)
             ex_question (ex_world_readonly, [])
    = (Ok (f' :: post'), (w5, calls))
    /\ length post' = 1
    /\ Created f' = false
    /\ Path f' = "/p/go/solution.go"
    /\ In (mkLogEntry LevelError "failed to write file"
             [("path", "/p/go/solution.go"); ("err", "permission denied")])
          (hclog w5)
    /\ map fst (writes_of calls)
       = ["/p/go/solution.go"; "/p/go/solution_test.go"].
Proof.
  assert (Hgen : GetGenerator
      ex_unicode (ex_langs (ex_cfg "go") ex_viper) (Lang (Code (ex_cfg "go")))
                 = Some (ex_golang_Generator (ex_cfg "go") ex_viper))
    by reflexivity.
  assert (Hsnip : GetCodeSnippet ex_question
                    (Generator_Slug (ex_golang_Generator (ex_cfg "go") ex_viper))
                  <> EmptyString) by discriminate.
  edestruct (write_failure_is_skipped (ex_cfg "go") ex_viper join_slash
      ex_unicode
               (ex_langs (ex_cfg "go") ex_viper) ex_question
               (ex_golang_Generator (ex_cfg "go") ex_viper)
               ex_world_readonly ex_world_readonly [CallCheckLibrary] []
               _ _ ex_world_readonly [] ex_world_readonly
               [CallCheckLibrary; CallGenerate] "permission denied"
               (set_files (<["/p/go/solution.go" := EmptyString]>
                             (files ex_world_readonly)) ex_world_readonly)
               Hgen Hsnip eq_refl eq_refl eq_refl eq_refl)
    as (f' & post' & w5 & calls & HG & _ & Hlen & _ & Hcr & Hpath & Hlog & Hw).
  exists f', post', w5, calls.
  split; [exact HG|]. split; [exact Hlen|].
  split; [apply Hcr; reflexivity|]. split; [exact Hpath|].
  split; [exact Hlog|]. rewrite Hw. reflexivity.
Defined.

(** C9 on the sample project: the user declines the overwrite of the
    solution; the record is saved all the same. *)
Lemma last_generated_persisted_witness :
  exists fs' w' calls,
    Generate (ex_cfg "go") ex_viper join_slash
        ex_unicode (ex_langs (ex_cfg "go") ex_viper)
             ex_question (ex_world_declining, [])
    = (Ok fs', (w', calls ++ [CallSaveState
                                (mkState (mkLastGeneratedQuestion
                                            "two-sum" "1" "golang"))]))
    /\ length fs' = 2
    /\ LastGenerated (saved_state w')
       = mkLastGeneratedQuestion "two-sum" "1" "golang".
Proof.
  assert (Hgen : GetGenerator
      ex_unicode (ex_langs (ex_cfg "go") ex_viper) (Lang (Code (ex_cfg "go")))
                 = Some (ex_golang_Generator (ex_cfg "go") ex_viper))
    by reflexivity.
  assert (Hsnip : GetCodeSnippet ex_question
                    (Generator_Slug (ex_golang_Generator (ex_cfg "go") ex_viper))
                  <> EmptyString) by discriminate.
  edestruct (last_generated_persisted (ex_cfg "go") ex_viper join_slash
      ex_unicode
               (ex_langs (ex_cfg "go") ex_viper) ex_question
               (ex_golang_Generator (ex_cfg "go") ex_viper)
               ex_world_declining ex_world_declining [CallCheckLibrary]
               _ ex_world_declining Hgen Hsnip eq_refl eq_refl)
    as (fs' & w' & calls & HG & Hlen & _ & Hlg & _).
  exists fs', w', calls. split; [exact HG|]. split; [exact Hlen|exact Hlg].
Defined.

(** C3 as the specification states it fails on the sample project: the
    solution exists, "assume yes" is off and the terminal breaks at the
    prompt.  [tryWrite] returns the failure of the prompt, and [Generate]
    logs it, goes on to write the test file, saves the LastGenerated record
    and returns success. *)
Lemma prompt_failure_does_not_abort :
  fst (tryWrite ex_viper "/p/go/solution.go" "package main" ex_world_interrupted)
  = Err "interrupt"
  /\ is_Ok (fst (Generate (ex_cfg "go") ex_viper join_slash ex_unicode
                          (ex_langs (ex_cfg "go") ex_viper) ex_question
                          (ex_world_interrupted, []))) = true
  /\ hclog (fst (snd (Generate (ex_cfg "go") ex_viper join_slash ex_unicode
                               (ex_langs (ex_cfg "go") ex_viper) ex_question
                               (ex_world_interrupted, []))))
     = [mkLogEntry LevelError "failed to write file"
          [("path", "/p/go/solution.go"); ("err", "interrupt")];
        mkLogEntry LevelInfo "generated" [("file", "/p/go/solution_test.go")]]
  /\ files (fst (snd (Generate (ex_cfg "go") ex_viper join_slash ex_unicode
                               (ex_langs (ex_cfg "go") ex_viper) ex_question
                               (ex_world_interrupted, []))))
       !! "/p/go/solution_test.go" = Some "package main"
  /\ saved_state ex_world_interrupted = ex_state
  /\ saved_state (fst (snd (Generate (ex_cfg "go") ex_viper join_slash
      ex_unicode
                               (ex_langs (ex_cfg "go") ex_viper) ex_question
                               (ex_world_interrupted, []))))
     = mkState (mkLastGeneratedQuestion "two-sum" "1" "golang").
Proof. vm_compute. repeat split; reflexivity. Qed.

(** C3, as the code has it, on the sample project. *)
Lemma prompt_failure_is_skipped_witness :
  exists content fs' w5 calls,
    tryWrite ex_viper "/p/go/solution.go" content ex_world_interrupted
    = (Err "interrupt", ex_world_solved)
    /\ Generate (ex_cfg "go") ex_viper join_slash ex_unicode
                (ex_langs (ex_cfg "go") ex_viper) ex_question
                (ex_world_interrupted, [])
       = (Ok fs', (w5, calls))
    /\ length fs' = 2
    /\ map fst (writes_of calls)
       = ["/p/go/solution.go"; "/p/go/solution_test.go"]
    /\ saved_state w5 = mkState (mkLastGeneratedQuestion "two-sum" "1" "golang").
Proof.
  assert (Hgen : GetGenerator
      ex_unicode (ex_langs (ex_cfg "go") ex_viper) (Lang (Code (ex_cfg "go")))
                 = Some (ex_golang_Generator (ex_cfg "go") ex_viper))
    by reflexivity.
  assert (Hsnip : GetCodeSnippet ex_question
                    (Generator_Slug (ex_golang_Generator (ex_cfg "go") ex_viper))
                  <> EmptyString) by discriminate.
  assert (Hex : is_Some (files ex_world_interrupted !! "/p/go/solution.go"))
    by (exists "package main"; reflexivity).
  edestruct (prompt_failure_is_skipped (ex_cfg "go") ex_viper join_slash
      ex_unicode
               (ex_langs (ex_cfg "go") ex_viper) ex_question
               (ex_golang_Generator (ex_cfg "go") ex_viper)
               ex_world_interrupted ex_world_interrupted [CallCheckLibrary] []
               _ _ ex_world_interrupted [] ex_world_interrupted
               [CallCheckLibrary; CallGenerate] "interrupt" ex_world_solved
               Hgen Hsnip eq_refl eq_refl eq_refl eq_refl Hex eq_refl)
    as (Htry & _ & post' & w5 & calls & HG & Hlen & _ & Hw & Hst).
  eexists _, _, w5, calls. split; [exact Htry|]. split; [exact HG|].
  split; [simpl; rewrite Hlen; reflexivity|].
  split; [rewrite Hw; reflexivity|exact Hst].
Defined.



(** C6 on the sample project. *)
Lemma baseLang_Generate_content_witness :
  exists f head,
    fst (baseLang_Generate (ex_cfg "py") ex_viper ex_python ex_question ex_world)
    = Ok [f]
    /\ Content f =
       head +:+ "'''" +:+ nl +:+ nl
         +:+ "# @lc code=begin" +:+ nl +:+ nl
         +:+ "class Solution: pass" +:+ nl +:+ nl
         +:+ "# @lc code=end" +:+ nl.
Proof.
  edestruct (baseLang_Generate_content (ex_cfg "py") ex_viper ex_python
               ex_question ex_world _ ex_world eq_refl)
    as (base & head & Hfs & _ & _ & Hc).
  eexists _, head. split; [reflexivity|].
  rewrite (Hc _ (or_introl eq_refl)). reflexivity.
Defined.

(** * Further properties of the code *)

(** ** The registry *)

Lemma prefix_refl (s : string) : String.prefix s s = true.
Proof.
  induction s as [|c s IH]; simpl; [reflexivity|].
  destruct (ascii_dec c c) as [_|Hne]; [exact IH|contradiction].
Qed.

Lemma prefix_trans (a b c : string) :
  String.prefix a b = true -> String.prefix b c = true ->
  String.prefix a c = true.
Proof.
  revert b c. induction a as [|x a IH]; intros b c Hab Hbc.
  - apply prefix_empty.
  - destruct b as [|y b]; [discriminate|].
    destruct c as [|z c]; [discriminate|].
    simpl in *.
    destruct (ascii_dec x y) as [->|]; [|discriminate].
    destruct (ascii_dec y z) as [->|]; [|discriminate].
    destruct (ascii_dec z z) as [_|Hne]; [|contradiction].
    eapply IH; eassumption.
Qed.

Lemma is_ascii_prefix (a b : string) :
  String.prefix a b = true -> is_ascii b = true -> is_ascii a = true.
Proof.
  revert b. induction a as [|x a IH]; intros b H Hb; [reflexivity|].
  destruct b as [|y b]; [discriminate|]. simpl in *.
  destruct (ascii_dec x y) as [->|]; [|discriminate].
  apply andb_true_iff in Hb as [Hy Hb]. rewrite Hy. cbn [andb].
  eapply IH; eassumption.
Qed.

Lemma ToLower_prefix (a b : string) :
  String.prefix a b = true ->
  String.prefix (ToLower_ascii a) (ToLower_ascii b) = true.
Proof.
  revert b. induction a as [|x a IH]; intros b H; [apply prefix_empty|].
  destruct b as [|y b]; [discriminate|]. simpl in *.
  destruct (ascii_dec x y) as [->|]; [|discriminate].
  destruct (ascii_dec (lower_byte y) (lower_byte y)) as [_|Hne];
    [|contradiction].
  apply IH. exact H.
Qed.

(** A generator that matches an identifier matches its prefixes. *)
Lemma matches_ident_prefix (pre ident : string) (l : Generator) :
  String.prefix pre ident = true ->
  matches_ident ident l = true -> matches_ident pre l = true.
Proof.
  unfold matches_ident, strings_HasPrefix. intros Hp Hm.
  apply orb_true_iff in Hm as [Hm|Hm]; apply orb_true_iff; [left|right];
    eapply prefix_trans; eassumption.
Qed.

Lemma GetGenerator_in_app (a b : list Generator) (ident : string) :
  GetGenerator_in (a ++ b) ident =
  match GetGenerator_in a ident with
  | Some g => Some g
  | None => GetGenerator_in b ident
  end.
Proof.
  induction a as [|l a IH]; simpl; [reflexivity|].
  destruct (_ || _); [reflexivity|exact IH].
Qed.

Lemma GetGenerator_in_In (langs : list Generator) (ident : string) g :
  GetGenerator_in langs ident = Some g -> In g langs.
Proof.
  induction langs as [|l langs IH]; simpl; [discriminate|].
  destruct (_ || _).
  - intros H. injection H as <-. left. reflexivity.
  - intros H. right. apply IH. exact H.
Qed.

Lemma GetGenerator_in_no_match (langs : list Generator) (ident : string) :
  GetGenerator_in langs ident = None <->
  Forall (fun l => matches_ident ident l = false) langs.
Proof.
  induction langs as [|l langs IH]; simpl.
  - split; [constructor|reflexivity].
  - fold (matches_ident ident l). destruct (matches_ident ident l) eqn:E.
    + split; [discriminate|]. intros H. inversion H; congruence.
    + rewrite IH. split; [constructor; assumption|].
      intros H. inversion H; assumption.
Qed.

Lemma lower_byte_not_upper (c : ascii) :
  ~ (65 <= nat_of_ascii (lower_byte c) <= 90).
Proof.
  unfold lower_byte.
  destruct ((65 <=? nat_of_ascii c) && (nat_of_ascii c <=? 90)) eqn:E.
  - apply andb_true_iff in E as [E1 E2].
    apply Nat.leb_le in E1. apply Nat.leb_le in E2.
    rewrite nat_ascii_embedding by lia. lia.
  - intros [H1 H2]. apply Nat.leb_le in H1. apply Nat.leb_le in H2.
    rewrite H1, H2 in E. discriminate.
Qed.

Lemma prefix_ToLower_upper (U : UnicodeToLower) (ident name : string) :
  starts_upper name ->
  String.prefix (strings_ToLower U ident) name = true ->
  ident = EmptyString.
Proof.
  intros Hup Hp. destruct ident as [|c ident]; [reflexivity|].
  destruct name as [|u name]; [destruct Hup|].
  unfold strings_ToLower in Hp.
  destruct (is_ascii (String c ident)).
  - simpl in Hp.
    destruct (ascii_dec (lower_byte c) u) as [<-|]; [|discriminate].
    exfalso. exact (lower_byte_not_upper c Hup).
  - pose proof (Map_ToLower_nonempty U (String c ident)) as Hne.
    pose proof (Map_ToLower_not_upper U (String c ident)) as Hnu.
    destruct (Map_ToLower U (String c ident)) as [|v r].
    + exfalso. apply Hne; [discriminate|reflexivity].
    + simpl in Hp. destruct (ascii_dec v u) as [->|]; [|discriminate].
      exfalso. exact (Hnu Hup).
Qed.

(** X1. An ASCII identifier that resolves keeps resolving when it is
    shortened: every prefix of it resolves too, to the same generator or to
    one registered before it. *)
Theorem GetGenerator_shorter_identifier
  (unicode_ToLower : UnicodeToLower)
  (langs : list Generator) (ident ident' : string) (g : Generator) :
  is_ascii ident = true ->
  String.prefix ident' ident = true ->
  GetGenerator unicode_ToLower langs ident = Some g ->
  exists g' pre post,
    GetGenerator unicode_ToLower langs ident' = Some g'
    /\ langs = pre ++ g :: post
    /\ (g' = g \/ In g' pre).
Proof.
  intros Hascii Hp Hg. unfold GetGenerator in *.
  rewrite (strings_ToLower_ascii _ ident Hascii) in Hg.
  rewrite (strings_ToLower_ascii _ ident' (is_ascii_prefix _ _ Hp Hascii)).
  pose proof (GetGenerator_in_first langs (ToLower_ascii ident)) as H.
  rewrite Hg in H. destruct H as (pre & post & -> & Hm & _).
  apply ToLower_prefix in Hp.
  pose proof (matches_ident_prefix _ _ _ Hp Hm) as Hm'.
  rewrite GetGenerator_in_app.
  destruct (GetGenerator_in pre (ToLower_ascii ident')) as [g'|] eqn:E.
  - exists g', pre, post. split; [reflexivity|]. split; [reflexivity|].
    right. eapply GetGenerator_in_In. exact E.
  - exists g, pre, post. split; [|split; [reflexivity|left; reflexivity]].
    simpl. fold (matches_ident (ToLower_ascii ident') g).
    rewrite Hm'. reflexivity.
Qed.

(** X2. A generator is shadowed when its short name is a prefix of a name
    of a generator registered before it, and its slug likewise: then no
    identifier resolves to it, and the registry resolves every identifier
    as it would without that generator. *)
Theorem GetGenerator_shadowed
  (unicode_ToLower : UnicodeToLower)
  (pre post : list Generator) (g : Generator) (ident : string) :
  Exists (fun l => matches_ident (Generator_ShortName g) l = true) pre ->
  Exists (fun l => matches_ident (Generator_Slug g) l = true) pre ->
  GetGenerator unicode_ToLower (pre ++ g :: post) ident = GetGenerator
      unicode_ToLower (pre ++ post) ident.
Proof.
  intros Hshort Hslug. unfold GetGenerator.
  rewrite !GetGenerator_in_app.
  destruct (GetGenerator_in pre (strings_ToLower
      unicode_ToLower ident)) as [g'|] eqn:E;
    [reflexivity|].
  simpl. fold (matches_ident (strings_ToLower unicode_ToLower ident) g).
  destruct (matches_ident (strings_ToLower
      unicode_ToLower ident) g) eqn:Hm; [|reflexivity].
  exfalso. apply GetGenerator_in_no_match in E.
  rewrite Forall_forall in E.
  unfold matches_ident, strings_HasPrefix in Hm.
  apply orb_true_iff in Hm as [Hm|Hm].
  - apply Exists_exists in Hshort as (l & Hin & Hl).
    pose proof (matches_ident_prefix _ _ _ Hm Hl) as Hc.
    rewrite (E l Hin) in Hc. discriminate.
  - apply Exists_exists in Hslug as (l & Hin & Hl).
    pose proof (matches_ident_prefix _ _ _ Hm Hl) as Hc.
    rewrite (E l Hin) in Hc. discriminate.
Qed.

(** X3. A registered generator is found under its own names in any case:
    an identifier that lowers to its slug or to its short name always
    resolves, and resolves to that generator when none registered before it
    matches the identifier. *)
Theorem GetGenerator_own_names
  (unicode_ToLower : UnicodeToLower)
  (pre post : list Generator) (g : Generator) (ident : string) :
  strings_ToLower unicode_ToLower ident = Generator_Slug g
  \/ strings_ToLower unicode_ToLower ident = Generator_ShortName g ->
  (exists g', GetGenerator unicode_ToLower (pre ++ g :: post) ident = Some g')
  /\ (Forall (fun l => matches_ident (strings_ToLower
      unicode_ToLower ident) l = false) pre ->
      GetGenerator unicode_ToLower (pre ++ g :: post) ident = Some g).
Proof.
  intros Hname.
  assert (Hm : matches_ident (strings_ToLower unicode_ToLower ident) g = true).
  { unfold matches_ident, strings_HasPrefix. apply orb_true_iff.
    destruct Hname as [->| ->]; [right|left]; apply prefix_refl. }
  unfold GetGenerator. rewrite GetGenerator_in_app. split.
  - destruct (GetGenerator_in pre (strings_ToLower
      unicode_ToLower ident)) as [g'|];
      [exists g'; reflexivity|].
    exists g. simpl. fold (matches_ident (strings_ToLower
        unicode_ToLower ident) g).
    rewrite Hm. reflexivity.
  - intros Hpre. apply GetGenerator_in_no_match in Hpre. rewrite Hpre.
    simpl. fold (matches_ident (strings_ToLower unicode_ToLower ident) g).
    rewrite Hm. reflexivity.
Qed.

(** X4. Only the identifier is lowered, not the registered names: a
    generator whose short name and slug both start with an upper-case
    letter is matched by no identifier but the empty one, and for every
    other identifier the registry resolves as it would without it. *)
Theorem GetGenerator_upper_case_names
  (unicode_ToLower : UnicodeToLower)
  (pre post : list Generator) (g : Generator) (ident : string) :
  starts_upper (Generator_ShortName g) ->
  starts_upper (Generator_Slug g) ->
  ident <> EmptyString ->
  GetGenerator unicode_ToLower (pre ++ g :: post) ident = GetGenerator
      unicode_ToLower (pre ++ post) ident.
Proof.
  intros Hshort Hslug Hne. unfold GetGenerator.
  rewrite !GetGenerator_in_app.
  destruct (GetGenerator_in pre (strings_ToLower
      unicode_ToLower ident)); [reflexivity|].
  simpl. destruct (strings_HasPrefix (Generator_ShortName g) _) eqn:E1.
  { exfalso. apply Hne. unfold strings_HasPrefix in E1.
    exact (prefix_ToLower_upper _ _ _ Hshort E1). }
  destruct (strings_HasPrefix (Generator_Slug g) _) eqn:E2.
  { exfalso. apply Hne. unfold strings_HasPrefix in E2.
    exact (prefix_ToLower_upper _ _ _ Hslug E2). }
  reflexivity.
Qed.

(** ** The file writer, further *)

Section FileWriterFacts.

Variable viper : Viper.

Local Abbreviation tryWrite := (tryWrite viper).

(** Every path of [tryWrite], by what is at [file], the flag "yes", the
    reply at the terminal and the two faults of the filesystem. *)
Ltac split_tryWrite file w :=
  unfold tryWrite, utils_IsExist, survey_AskOne_Confirm,
    utils_CreateIfNotExists, os_WriteFile;
  destruct (files w !! file) as [?old|] eqn:?Hold;
  [ rewrite bool_decide_eq_true_2 by (eexists; reflexivity);
    destruct (viper_GetBool viper "yes") eqn:?Hyes; cbn [negb];
    [ | destruct (terminal w) as [|[[|]|?e] ?rest] eqn:?Hterm ]
  | rewrite bool_decide_eq_false_2 by (intros [? ?]; discriminate) ];
  cbn [negb files set_terminal set_files create_faults write_faults];
  rewrite ?Hold;
  try destruct (create_faults w !! file) as [?e|] eqn:?Hcreate;
  cbn [negb files set_terminal set_files create_faults write_faults];
  try destruct (write_faults w !! file) as [?e|] eqn:?Hwrite;
  cbn [fst snd negb files set_terminal set_files hclog_Info add_log
       create_faults write_faults terminal saved_state clock hclog].

(** X5. What [tryWrite] reports as created is on disk: when it returns
    created = true, the file holds exactly the content it was given. *)
Theorem tryWrite_created_on_disk file content w w' :
  tryWrite file content w = (Ok true, w') ->
  files w' !! file = Some content.
Proof.
  split_tryWrite file w; intros H; try discriminate;
    injection H as <-; cbn [files hclog_Info add_log set_files];
    apply lookup_insert_eq.
Qed.

(** X6. [tryWrite] touches nothing but the file it is given: every other
    path, the persisted state and the clock are after the call as before,
    whatever it returns. *)
Theorem tryWrite_frame file content w p :
  p <> file ->
  files (snd (tryWrite file content w)) !! p = files w !! p
  /\ saved_state (snd (tryWrite file content w)) = saved_state w
  /\ clock (snd (tryWrite file content w)) = clock w.
Proof.
  intros Hne.
  split_tryWrite file w;
    rewrite ?lookup_insert_ne by congruence; repeat split; reflexivity.
Qed.

(** X7. [tryWrite] returns created = false without an error in one case
    only: the file exists, "assume yes" is off, and the user answered no.
    Then the files and the log are unchanged and that one reply has been
    read. *)
Theorem tryWrite_declines_only_on_no file content w w' :
  tryWrite file content w = (Ok false, w') ->
  is_Some (files w !! file)
  /\ viper_GetBool viper "yes" = false
  /\ terminal w = Answer false :: terminal w'
  /\ files w' = files w
  /\ hclog w' = hclog w.
Proof.
  split_tryWrite file w; intros H; try discriminate;
    injection H as <-; repeat split; eauto.
Qed.

(** X8. [tryWrite] asks at the terminal only for a file that exists and
    only when "assume yes" is off; it reads at most one reply.  With
    "assume yes" on, or on a path where nothing is, the replies at the
    terminal are left unread and the write is never reported as declined. *)
Theorem tryWrite_prompts_only_on_conflict file content w :
  (terminal (snd (tryWrite file content w)) = terminal w
   \/ terminal (snd (tryWrite file content w)) = tail (terminal w))
  /\ (viper_GetBool viper "yes" = true \/ files w !! file = None ->
      terminal (snd (tryWrite file content w)) = terminal w
      /\ fst (tryWrite file content w) <> Ok false).
Proof.
  split_tryWrite file w; (split; [auto|]);
    intros [Hc|Hc]; try discriminate; (split; [reflexivity|discriminate]).
Qed.

(** On the filesystem as it is modelled here, where a write that is
    refused changes nothing, a failed [tryWrite] leaves an existing file as
    it was. *)
Lemma tryWrite_failure_keeps_existing file content w old e w' :
  files w !! file = Some old ->
  tryWrite file content w = (Err e, w') ->
  files w' = files w /\ files w' !! file = Some old.
Proof.
  intros Hfile. split_tryWrite file w; try congruence;
    intros H; try discriminate; injection H as _ <-;
    cbn [files set_terminal]; (split; [reflexivity|congruence]).
Qed.

(** X9. The log tells what was written: [tryWrite] adds the entry
    "generated" of the file exactly when it returns created = true, and
    adds nothing otherwise. *)
Theorem tryWrite_logs_what_it_writes file content w :
  hclog (snd (tryWrite file content w)) =
  hclog w ++ match fst (tryWrite file content w) with
             | Ok true => [generatedEntry file]
             | _ => []
             end.
Proof.
  split_tryWrite file w; rewrite ?app_nil_r; reflexivity.
Qed.

Lemma tryWrite_written file content w w' :
  tryWrite file content w = (Ok true, w') ->
  files w' !! file = Some content
  /\ write_faults w' !! file = None
  /\ (viper_GetBool viper "yes" = true -> terminal w' = terminal w).
Proof.
  split_tryWrite file w; intros H; try discriminate;
    injection H as <-;
    cbn [files write_faults terminal hclog_Info add_log set_files set_terminal];
    (split; [apply lookup_insert_eq|]); (split; [assumption|]);
    intros; try reflexivity; congruence.
Qed.

(** The second of two calls of [tryWrite] on a file that exists. *)
Lemma tryWrite_existing file content w old :
  files w !! file = Some old ->
  tryWrite file content w =
  if viper_GetBool viper "yes" then
    match write_faults w !! file with
    | Some e => (Err e, w)
    | None =>
        (Ok true,
         hclog_Info "generated" [("file", file)]
                    (set_files (<[file := content]> (files w)) w))
    end
  else
    match terminal w with
    | [] => (Err "EOF", w)
    | PromptFails e :: rest => (Err e, set_terminal rest w)
    | Answer false :: rest => (Ok false, set_terminal rest w)
    | Answer true :: rest =>
        match write_faults w !! file with
        | Some e => (Err e, set_terminal rest w)
        | None =>
            (Ok true,
             hclog_Info "generated" [("file", file)]
               (set_files (<[file := content]> (files w))
                          (set_terminal rest w)))
        end
    end.
Proof.
  intros Hfile. split_tryWrite file w; try congruence; reflexivity.
Qed.

(** X10. With "assume yes", writing a file again is idempotent: after a
    write that reported created = true, the same call again reads nothing
    at the terminal, is never reported as declined, and when it reports
    created = true it leaves the files as the first call left them. *)
Theorem tryWrite_again_assume_yes file content w w1 r w2 :
  viper_GetBool viper "yes" = true ->
  tryWrite file content w = (Ok true, w1) ->
  tryWrite file content w1 = (r, w2) ->
  r <> Ok false
  /\ terminal w2 = terminal w1
  /\ (r = Ok true -> files w2 = files w1).
Proof.
  intros Hyes H1 H2.
  destruct (tryWrite_written _ _ _ _ H1) as (Hfile & _ & _).
  rewrite (tryWrite_existing file content w1 content Hfile), Hyes in H2.
  destruct (write_faults w1 !! file) as [e|]; injection H2 as <- <-.
  - split; [discriminate|]. split; [reflexivity|discriminate].
  - split; [discriminate|]. split; [reflexivity|].
    intros _. cbn [files hclog_Info add_log set_files].
    apply insert_id. exact Hfile.
Qed.

(** X11. Without "assume yes", a file that [tryWrite] has written is not
    overwritten behind the user's back: after any later call on the same
    path, with whatever content, either the user had answered yes at the
    terminal, or the file still holds the content of the first write. *)
Theorem tryWrite_written_file_protected file content w w1 content' r w2 :
  viper_GetBool viper "yes" = false ->
  tryWrite file content w = (Ok true, w1) ->
  tryWrite file content' w1 = (r, w2) ->
  (exists rest, terminal w1 = Answer true :: rest)
  \/ files w2 !! file = Some content.
Proof.
  intros Hyes H1 H2.
  destruct (tryWrite_written _ _ _ _ H1) as (Hfile & _ & _).
  rewrite (tryWrite_existing file content' w1 content Hfile), Hyes in H2.
  destruct (terminal w1) as [|[[|]|e] rest].
  - injection H2 as _ <-. right. exact Hfile.
  - left. exists rest. reflexivity.
  - injection H2 as _ <-. right. exact Hfile.
  - injection H2 as _ <-. right. exact Hfile.
Qed.

(** What [tryWrite] leaves alone, for the loop of [Generate]. *)
Lemma tryWrite_other_paths file content w p :
  p <> file ->
  files (snd (tryWrite file content w)) !! p = files w !! p.
Proof.
  intros Hne.
  split_tryWrite file w; rewrite ?lookup_insert_ne by congruence; reflexivity.
Qed.

Lemma tryWrite_assume_yes_terminal file content w :
  viper_GetBool viper "yes" = true ->
  terminal (snd (tryWrite file content w)) = terminal w.
Proof.
  intros Hyes. split_tryWrite file w; try congruence; reflexivity.
Qed.

End FileWriterFacts.

(** ** The dispatch function, further *)

Section DispatchMore.

Variable cfg : Config.
Variable viper : Viper.
Variable filepath_Join : list string -> string.
Variable unicode_ToLower : UnicodeToLower.
Variable SupportedLangs : list Generator.

Local Abbreviation GetGenerator := (GetGenerator
    unicode_ToLower SupportedLangs).
Local Abbreviation Generate := (Generate cfg viper filepath_Join
    unicode_ToLower SupportedLangs).
Local Abbreviation tryWrite := (tryWrite viper).
Local Abbreviation writeEach := (writeEach cfg viper filepath_Join).
Local Abbreviation absPath := (absPath cfg filepath_Join).
Local Abbreviation writeCalls := (writeCalls cfg filepath_Join).
Local Abbreviation outDir := (outDir cfg viper).
Local Abbreviation lang := (Lang (Code cfg)).

(** The output that one turn of the loop leaves for [f], and the world it
    leaves, by what [tryWrite] returned. *)
Lemma writeEach_cons gen dir (f : FileOutput) rest w tr fs' w' tr' :
  writeEach gen dir (f :: rest) (w, tr) = (Ok fs', (w', tr')) ->
  exists rest',
    fs' = mkFileOutput (absPath dir f) (Content f)
            match fst (tryWrite (absPath dir f) (Content f) w) with
            | Ok written => written
            | Err _ => Created f
            end (Some gen) :: rest'
    /\ writeEach gen dir rest
         (match fst (tryWrite (absPath dir f) (Content f) w) with
          | Ok _ => snd (tryWrite (absPath dir f) (Content f) w)
          | Err err =>
              hclog_Error "failed to write file"
                [("path", absPath dir f); ("err", err)]
                (snd (tryWrite (absPath dir f) (Content f) w))
          end,
          tr ++ [CallTryWrite (absPath dir f) (Content f)])
       = (Ok rest', (w', tr')).
Proof.
  cbn [writeEach]. unfold bind at 1. rewrite writeOne_run.
  destruct (tryWrite (absPath dir f) (Content f) w) as [[written|err] w1];
    cbn [fst snd]; unfold bind, ret;
    match goal with
    | |- context [writeEach gen dir rest ?s] =>
        destruct (writeEach gen dir rest s) as [[rest'|e] [w2 tr2]]
    end;
    intros H; try discriminate; injection H as <- <- <-;
    exists rest'; split; reflexivity.
Qed.

(** Every output that [Generate] returns carries the absolute path, the
    content the generator gave it and the generator. *)
Lemma writeEach_shape gen dir (fs : list FileOutput) w tr fs' w' tr' :
  writeEach gen dir fs (w, tr) = (Ok fs', (w', tr')) ->
  Forall2 (fun f f' => Path f' = absPath dir f
                       /\ Content f' = Content f
                       /\ GeneratorRef f' = Some gen) fs fs'.
Proof.
  revert w tr fs'. induction fs as [|f rest IH]; intros w tr fs' H.
  - cbn in H. unfold ret in H. injection H as <- _ _. constructor.
  - apply writeEach_cons in H as (rest' & -> & Hrest).
    constructor; [repeat split; reflexivity|].
    eapply IH. exact Hrest.
Qed.

(** The loop changes no file but those at the paths of the outputs, and
    neither the persisted state nor the clock. *)
Lemma writeEach_frame gen dir (fs : list FileOutput) w tr fs' w' tr' p :
  writeEach gen dir fs (w, tr) = (Ok fs', (w', tr')) ->
  ~ In p (map (absPath dir) fs) ->
  files w' !! p = files w !! p.
Proof.
  revert w tr fs'. induction fs as [|f rest IH]; intros w tr fs' H Hp.
  - cbn in H. unfold ret in H. injection H as _ <- _. reflexivity.
  - apply writeEach_cons in H as (rest' & _ & Hrest).
    assert (Hne : p <> absPath dir f) by (intros ->; apply Hp; left; reflexivity).
    assert (Hp' : ~ In p (map (absPath dir) rest))
      by (intros Hin; apply Hp; right; exact Hin).
    rewrite (IH _ _ _ Hrest Hp').
    pose proof (tryWrite_other_paths viper (absPath dir f) (Content f) w p Hne)
      as Hframe.
    destruct (tryWrite (absPath dir f) (Content f) w) as [[written|err] w1];
      exact Hframe.
Qed.

(** When the generator leaves the flags off and the paths differ, an
    output flagged as created is on disk with its content when the loop
    ends. *)
Lemma writeEach_created gen dir (fs : list FileOutput) w tr fs' w' tr' :
  writeEach gen dir fs (w, tr) = (Ok fs', (w', tr')) ->
  Forall (fun f => Created f = false) fs ->
  List.NoDup (map (absPath dir) fs) ->
  forall f', In f' fs' -> Created f' = true ->
             files w' !! Path f' = Some (Content f').
Proof.
  revert w tr fs'. induction fs as [|f rest IH];
    intros w tr fs' H Hoff Hnd f' Hin Hcr.
  - cbn in H. unfold ret in H. injection H as <- _ _. destruct Hin.
  - apply writeEach_cons in H as (rest' & -> & Hrest).
    inversion Hoff as [|? ? Hf Hoff']; subst.
    inversion Hnd as [|? ? Hnotin Hnd']; subst.
    destruct Hin as [<-|Hin]; [|eapply IH; eassumption].
    cbn [Path Content Created] in *.
    rewrite (writeEach_frame _ _ _ _ _ _ _ _ _ Hrest Hnotin).
    destruct (tryWrite (absPath dir f) (Content f) w) as [[written|err] w1]
      eqn:E; cbn [fst snd] in *; [|congruence].
    subst written. exact (proj1 (tryWrite_written viper _ _ _ _ E)).
Qed.

(** The calls of [Generate] after a bootstrap that went through: the
    generator's [Generate], then calls of [tryWrite] and [SaveState] only. *)
Lemma Generate_after_bootstrap_calls q gen w w1 tr1 :
  GetGenerator lang = Some gen ->
  GetCodeSnippet q (Generator_Slug gen) <> EmptyString ->
  bootstrap gen (w, []) = (Ok tt, (w1, tr1)) ->
  exists r w' rest,
    Generate q (w, []) = (r, (w', tr1 ++ CallGenerate :: rest))
    /\ (forall c, In c rest ->
          (exists p x, c = CallTryWrite p x) \/ (exists st, c = CallSaveState st))
    /\ (forall e w2, Generator_Generate gen q w1 = (Err e, w2) ->
          r = Err e /\ w' = w2 /\ rest = []).
Proof.
  intros Hgen Hsnip Hboot.
  destruct (Generator_Generate gen q w1) as [[fs|e] w2] eqn:Hfs.
  - destruct (Generate_write_phase cfg viper filepath_Join
      unicode_ToLower SupportedLangs
                q gen _ _ _ _ _ _ Hgen Hsnip Hboot Hfs)
      as (fs' & w3 & _ & _ & _ & HG).
    eexists _, _, (writeCalls outDir fs ++ [CallSaveState _]).
    split; [rewrite HG, <- !app_assoc; reflexivity|].
    split; [|intros e w4 H; discriminate].
    intros c Hin. apply in_app_or in Hin as [Hin|[<-|[]]].
    + left. unfold writeCalls in Hin.
      apply in_map_iff in Hin as (x & <- & _). eauto.
    + right. eauto.
  - exists (Err e), w2, []. split.
    + rewrite (Generate_resolved cfg viper filepath_Join
        unicode_ToLower SupportedLangs
                 q gen _ Hgen Hsnip), Hboot, Hfs. reflexivity.
    + split; [intros c []|].
      intros e' w3 H. injection H as <- <-. repeat split; reflexivity.
Qed.

(** X12. A call of [Generate] that fails has written nothing and saved
    nothing: whatever the error, it has made no call of [tryWrite] and no
    call of [SaveState]. *)
Theorem Generate_failure_writes_nothing q w e w' calls :
  Generate q (w, []) = (Err e, (w', calls)) ->
  writes_of calls = [] /\ (forall st, ~ In (CallSaveState st) calls).
Proof.
  intros H.
  destruct (GetGenerator lang) as [gen|] eqn:Hgen.
  2:{ rewrite (Generate_unsupported cfg viper filepath_Join
      unicode_ToLower SupportedLangs
                 q _ Hgen) in H.
      injection H as _ _ <-. split; [reflexivity|intros st []]. }
  destruct (String.eqb (GetCodeSnippet q (Generator_Slug gen)) EmptyString)
    eqn:E.
  { apply String.eqb_eq in E.
    rewrite (Generate_no_snippet cfg viper filepath_Join
        unicode_ToLower SupportedLangs
               q gen _ Hgen E) in H.
    injection H as _ _ <-. split; [reflexivity|intros st []]. }
  apply String.eqb_neq in E.
  destruct (bootstrap_run gen w []) as (r & w1 & calls1 & Hrun & Hc & Herr).
  simpl in Hrun. destruct r as [[]|e1].
  - destruct (Generate_after_bootstrap_calls q gen w w1 calls1 Hgen E Hrun)
      as (r & w2 & rest & HG & _ & Hfail).
    destruct (Generator_Generate gen q w1) as [[fs|e2] w3] eqn:Hfs.
    + destruct (Generate_write_phase cfg viper filepath_Join
        unicode_ToLower SupportedLangs
                  q gen _ _ _ _ _ _ Hgen E Hrun Hfs) as (? & ? & _ & _ & _ & HG').
      rewrite HG' in H. discriminate.
    + destruct (Hfail _ _ eq_refl) as (-> & -> & ->).
      rewrite HG in H. injection H as _ _ <-.
      destruct Hc as [->|[->| ->]]; (split; [reflexivity|]);
        intros st Hin; simpl in Hin; intuition discriminate.
  - rewrite (Generate_resolved cfg viper filepath_Join
      unicode_ToLower SupportedLangs
               q gen _ Hgen E), Hrun in H.
    injection H as _ _ <-. rewrite (Herr e1 eq_refl).
    split; [reflexivity|]. intros st Hin. simpl in Hin. intuition discriminate.
Qed.

(** X13. An error of the generator's [Generate] is the error of the
    dispatch: [Generate] returns it at once, in the world that the
    generator left, with the generator's [Generate] as its last call. *)
Theorem Generate_generator_error q gen w w1 tr1 e w2 :
  GetGenerator lang = Some gen ->
  GetCodeSnippet q (Generator_Slug gen) <> EmptyString ->
  bootstrap gen (w, []) = (Ok tt, (w1, tr1)) ->
  Generator_Generate gen q w1 = (Err e, w2) ->
  Generate q (w, []) = (Err e, (w2, tr1 ++ [CallGenerate])).
Proof.
  intros Hgen Hsnip Hboot Hfs.
  rewrite (Generate_resolved cfg viper filepath_Join
      unicode_ToLower SupportedLangs
             q gen _ Hgen Hsnip), Hboot, Hfs. reflexivity.
Qed.

(** X14. The bootstrap is skipped when there is nothing to install: for a
    generator that is not testable, [Generate] calls neither
    [CheckLibrary] nor [GenerateLibrary] and starts with the generator's
    [Generate]; for a testable generator whose library is present, it calls
    [CheckLibrary] once, then the generator's [Generate] in the world that
    the check left, and never [GenerateLibrary]. *)
Theorem Generate_skips_bootstrap q gen w :
  GetGenerator lang = Some gen ->
  GetCodeSnippet q (Generator_Slug gen) <> EmptyString ->
  (asTestable gen = None ->
   exists r w' rest,
     Generate q (w, []) = (r, (w', CallGenerate :: rest))
     /\ ~ In CallCheckLibrary rest /\ ~ In CallGenerateLibrary rest
     /\ (forall e w2, Generator_Generate gen q w = (Err e, w2) -> r = Err e))
  /\ (forall t w1,
        asTestable gen = Some t ->
        Testable_CheckLibrary t w = (true, w1) ->
        exists r w' rest,
          Generate q (w, []) = (r, (w', CallCheckLibrary :: CallGenerate :: rest))
          /\ ~ In CallCheckLibrary rest /\ ~ In CallGenerateLibrary rest
          /\ (forall e w2, Generator_Generate gen q w1 = (Err e, w2) -> r = Err e)).
Proof.
  intros Hgen Hsnip.
  assert (Hrest : forall rest : list Call,
             (forall c, In c rest ->
                (exists p x, c = CallTryWrite p x)
                \/ (exists st, c = CallSaveState st)) ->
             ~ In CallCheckLibrary rest /\ ~ In CallGenerateLibrary rest).
  { intros rest Hall.
    split; intros Hin; destruct (Hall _ Hin) as [(p & x & Hc)|(st & Hc)];
      discriminate. }
  split.
  - intros Hnone.
    assert (Hboot : bootstrap gen (w, []) = (Ok tt, (w, []))).
    { unfold bootstrap. rewrite Hnone. reflexivity. }
    destruct (Generate_after_bootstrap_calls q gen w w [] Hgen Hsnip Hboot)
      as (r & w' & rest & HG & Hall & Hfail).
    exists r, w', rest. split; [exact HG|].
    destruct (Hrest rest Hall) as [H1 H2].
    split; [exact H1|]. split; [exact H2|].
    intros e w2 H. apply (Hfail e w2 H).
  - intros t w1 Ht Hcheck.
    assert (Hboot : bootstrap gen (w, []) = (Ok tt, (w1, [CallCheckLibrary]))).
    { unfold bootstrap. rewrite Ht. unfold_dispatch. rewrite Hcheck.
      reflexivity. }
    destruct (Generate_after_bootstrap_calls q gen w w1 _ Hgen Hsnip Hboot)
      as (r & w' & rest & HG & Hall & Hfail).
    exists r, w', rest. split; [exact HG|].
    destruct (Hrest rest Hall) as [H1 H2].
    split; [exact H1|]. split; [exact H2|].
    intros e w2 H. apply (Hfail e w2 H).
Qed.

(** X15. Every output that [Generate] returns is the generator's output
    with its path made absolute — project root, output directory, relative
    path, joined — with the same content, and with the generator attached;
    the outputs come back in the generator's order, none added or lost. *)
Theorem Generate_outputs_shape q gen w0 w1 tr1 fs w2 :
  GetGenerator lang = Some gen ->
  GetCodeSnippet q (Generator_Slug gen) <> EmptyString ->
  bootstrap gen (w0, []) = (Ok tt, (w1, tr1)) ->
  Generator_Generate gen q w1 = (Ok fs, w2) ->
  exists fs' w' calls,
    Generate q (w0, []) = (Ok fs', (w', calls))
    /\ Forall2 (fun f f' =>
                  Path f' = filepath_Join [ProjectRoot cfg; outDir; Path f]
                  /\ Content f' = Content f
                  /\ GeneratorRef f' = Some gen) fs fs'.
Proof.
  intros Hgen Hsnip Hboot Hfs.
  destruct (Generate_write_phase cfg viper filepath_Join
      unicode_ToLower SupportedLangs
              q gen _ _ _ _ _ _ Hgen Hsnip Hboot Hfs)
    as (fs' & w3 & Hw & _ & _ & HG).
  eexists fs', _, _. split; [exact HG|].
  exact (writeEach_shape _ _ _ _ _ _ _ _ Hw).
Qed.

(** X16. The write phase of [Generate] changes no file but those at the
    absolute paths of the outputs: every other path holds after the call
    what it held when the generator returned. *)
Theorem Generate_disk_frame q gen w0 w1 tr1 fs w2 p :
  GetGenerator lang = Some gen ->
  GetCodeSnippet q (Generator_Slug gen) <> EmptyString ->
  bootstrap gen (w0, []) = (Ok tt, (w1, tr1)) ->
  Generator_Generate gen q w1 = (Ok fs, w2) ->
  ~ In p (map (absPath outDir) fs) ->
  files (fst (snd (Generate q (w0, [])))) !! p = files w2 !! p.
Proof.
  intros Hgen Hsnip Hboot Hfs Hp.
  destruct (Generate_write_phase cfg viper filepath_Join
      unicode_ToLower SupportedLangs
              q gen _ _ _ _ _ _ Hgen Hsnip Hboot Hfs)
    as (fs' & w3 & Hw & _ & _ & HG).
  rewrite HG. cbn [fst snd config_SaveState set_saved_state files].
  exact (writeEach_frame _ _ _ _ _ _ _ _ _ Hw Hp).
Qed.

(** X17. The flag Created can be trusted: when the generator leaves the
    flags off and its outputs go to different paths, every output that
    [Generate] returns with Created = true is on disk, under its path, with
    its content, when [Generate] returns. *)
Theorem Generate_created_on_disk q gen w0 w1 tr1 fs w2 :
  GetGenerator lang = Some gen ->
  GetCodeSnippet q (Generator_Slug gen) <> EmptyString ->
  bootstrap gen (w0, []) = (Ok tt, (w1, tr1)) ->
  Generator_Generate gen q w1 = (Ok fs, w2) ->
  Forall (fun f => Created f = false) fs ->
  List.NoDup (map (absPath outDir) fs) ->
  exists fs' w' calls,
    Generate q (w0, []) = (Ok fs', (w', calls))
    /\ forall f', In f' fs' -> Created f' = true ->
                  files w' !! Path f' = Some (Content f').
Proof.
  intros Hgen Hsnip Hboot Hfs Hoff Hnd.
  destruct (Generate_write_phase cfg viper filepath_Join
      unicode_ToLower SupportedLangs
              q gen _ _ _ _ _ _ Hgen Hsnip Hboot Hfs)
    as (fs' & w3 & Hw & _ & _ & HG).
  eexists fs', _, _. split; [exact HG|].
  intros f' Hin Hcr. cbn [config_SaveState set_saved_state files].
  exact (writeEach_created _ _ _ _ _ _ _ _ Hw Hoff Hnd f' Hin Hcr).
Qed.

(** X18. The whole dispatch for a language rendered by [baseLang], when
    nothing is in the way (the file name formats, nothing is at the target
    path and the filesystem accepts the write): [Generate] returns the one
    output, flagged created, under its absolute path; the file on disk
    holds header, newline, code, newline; the write is logged; the
    LastGenerated record is saved; and the calls are the generator's
    [Generate], one [tryWrite] and [SaveState]. *)
Theorem Generate_baseLang_new_file l q w base :
  let gen := baseLang_Generator cfg viper l in
  let content :=
    baseLang_generateComments cfg l q w +:+ nl
      +:+ baseLang_generateCode l q [addCodeMark cfg (lineComment l)] +:+ nl in
  let path :=
    filepath_Join [ProjectRoot cfg; outDir; base +:+ "." +:+ extension l] in
  let st := mkState (lastGeneratedOf q gen) in
  GetGenerator lang = Some gen ->
  GetCodeSnippet q (slug l) <> EmptyString ->
  GetFormattedFilename q (slug l) (getFilenameTemplate cfg viper (slug l))
    = Ok base ->
  files w !! path = None ->
  create_faults w !! path = None ->
  write_faults w !! path = None ->
  Generate q (w, []) =
  (Ok [mkFileOutput path content true (Some gen)],
   (config_SaveState st
      (hclog_Info "generated" [("file", path)]
         (set_files (<[path := content]> (files w)) w)),
    [CallGenerate; CallTryWrite path content; CallSaveState st])).
Proof.
  intros gen content path st Hgen Hsnip Hname Hnew Hc Hw.
  rewrite (Generate_resolved cfg viper filepath_Join
      unicode_ToLower SupportedLangs
             q gen _ Hgen Hsnip).
  cbn [bootstrap gen baseLang_Generator asTestable ret Generator_Generate].
  unfold baseLang_Generate, baseLang_Slug. rewrite Hname.
  cbn [writeEach]. unfold bind at 1. rewrite writeOne_run.
  cbn [Content Created]. unfold absPath. cbn [Path].
  fold path. fold content.
  rewrite (tryWrite_new_file viper path content w Hnew), Hc, Hw.
  unfold bind, ret. cbn [app]. rewrite insert_insert_eq. reflexivity.
Qed.

(** X19. When the file name of the question cannot be formatted, the
    dispatch for a language rendered by [baseLang] fails with the error of
    the formatting and leaves the world as it found it: nothing is written,
    logged or saved. *)
Theorem Generate_baseLang_filename_error l q w e :
  let gen := baseLang_Generator cfg viper l in
  GetGenerator lang = Some gen ->
  GetCodeSnippet q (slug l) <> EmptyString ->
  GetFormattedFilename q (slug l) (getFilenameTemplate cfg viper (slug l))
    = Err e ->
  Generate q (w, []) = (Err e, (w, [CallGenerate])).
Proof.
  intros gen Hgen Hsnip Hname.
  rewrite (Generate_resolved cfg viper filepath_Join
      unicode_ToLower SupportedLangs
             q gen _ Hgen Hsnip).
  cbn [bootstrap gen baseLang_Generator asTestable ret Generator_Generate].
  unfold baseLang_Generate, baseLang_Slug. rewrite Hname. reflexivity.
Qed.

Lemma writeEach_assume_yes_terminal gen dir (fs : list FileOutput)
  w tr fs' w' tr' :
  viper_GetBool viper "yes" = true ->
  writeEach gen dir fs (w, tr) = (Ok fs', (w', tr')) ->
  terminal w' = terminal w.
Proof.
  intros Hyes. revert w tr fs'. induction fs as [|f rest IH]; intros w tr fs' H.
  - cbn in H. unfold ret in H. injection H as _ <- _. reflexivity.
  - apply writeEach_cons in H as (rest' & _ & Hrest).
    rewrite (IH _ _ _ Hrest).
    pose proof (tryWrite_assume_yes_terminal viper (absPath dir f) (Content f)
                  w Hyes) as Hterm.
    destruct (tryWrite (absPath dir f) (Content f) w) as [[written|err] w1];
      exact Hterm.
Qed.

(** X20. With "assume yes", the write phase of [Generate] never asks: the
    replies waiting at the terminal when the generator returned are still
    there, unread, when [Generate] returns, whatever files exist. *)
Theorem Generate_assume_yes_never_prompts q gen w0 w1 tr1 fs w2 :
  viper_GetBool viper "yes" = true ->
  GetGenerator lang = Some gen ->
  GetCodeSnippet q (Generator_Slug gen) <> EmptyString ->
  bootstrap gen (w0, []) = (Ok tt, (w1, tr1)) ->
  Generator_Generate gen q w1 = (Ok fs, w2) ->
  terminal (fst (snd (Generate q (w0, [])))) = terminal w2.
Proof.
  intros Hyes Hgen Hsnip Hboot Hfs.
  destruct (Generate_write_phase cfg viper filepath_Join
      unicode_ToLower SupportedLangs
              q gen _ _ _ _ _ _ Hgen Hsnip Hboot Hfs)
    as (fs' & w3 & Hw & _ & _ & HG).
  rewrite HG. cbn [fst snd config_SaveState set_saved_state terminal].
  exact (writeEach_assume_yes_terminal _ _ _ _ _ _ _ _ Hyes Hw).
Qed.

End DispatchMore.

(** ** The modifiers of the code block *)

Lemma append_inj_l (a s s' : string) : a +:+ s = a +:+ s' -> s = s'.
Proof.
  induction a as [|c a IH]; intros H; [exact H|].
  change (String c (a +:+ s) = String c (a +:+ s')) in H.
  injection H as H. apply IH. exact H.
Qed.

Lemma length_append (a b : string) :
  String.length (a +:+ b) = (String.length a + String.length b)%nat.
Proof.
  induction a as [|c a IH]; [reflexivity|].
  change (S (String.length (a +:+ b)) = S (String.length a + String.length b)).
  rewrite IH. reflexivity.
Qed.

Lemma append_inj_r (s s' b : string) : s +:+ b = s' +:+ b -> s = s'.
Proof.
  revert s'. induction s as [|c s IH]; intros [|c' s'] H.
  - reflexivity.
  - apply (f_equal String.length) in H.
    change (String.length b = S (String.length (s' +:+ b))) in H.
    rewrite length_append in H. lia.
  - apply (f_equal String.length) in H.
    change (S (String.length (s +:+ b)) = String.length b) in H.
    rewrite length_append in H. lia.
  - change (String c (s +:+ b) = String c' (s' +:+ b)) in H.
    injection H as -> H. f_equal. apply IH. exact H.
Qed.

Section ModifierFacts.

Variable cfg : Config.

Local Abbreviation addCodeMark := (addCodeMark cfg).

(** X21. The modifiers are applied in the order of the list, each to the
    result of those before it: with no modifier the code is the raw
    snippet, and a modifier added at the end of a chain is applied to what
    the chain renders. *)
Theorem generateCode_in_order l q (ms : list Modifier) (m : Modifier) :
  baseLang_generateCode l q [] = GetCodeSnippet q (slug l)
  /\ baseLang_generateCode l q (ms ++ [m])
     = m (baseLang_generateCode l q ms) q
  /\ forall ms', baseLang_generateCode l q (ms ++ ms')
                 = fold_left (fun code m => m code q) ms'
                             (baseLang_generateCode l q ms).
Proof.
  unfold baseLang_generateCode. split; [reflexivity|].
  split; [rewrite fold_left_app; reflexivity|].
  intros ms'. apply fold_left_app.
Qed.

(** X22. [removeComments] removes nothing: wherever it stands in a chain
    of modifiers, the code is the one that the chain renders without it. *)
Theorem removeComments_inert l q (ms ms' : list Modifier) :
  baseLang_generateCode l q (ms ++ removeComments :: ms')
  = baseLang_generateCode l q (ms ++ ms').
Proof.
  unfold baseLang_generateCode. rewrite !fold_left_app. reflexivity.
Qed.

(** X23. Two [prepend] in a row are one: prepending [a] and then [b]
    renders what prepending [b] followed by [a] renders, so the text of
    the later modifier comes first. *)
Theorem prepend_prepend l q (ms ms' : list Modifier) (a b : string) :
  baseLang_generateCode l q (ms ++ prepend a :: prepend b :: ms')
  = baseLang_generateCode l q (ms ++ prepend (b +:+ a) :: ms').
Proof.
  unfold baseLang_generateCode. rewrite !fold_left_app.
  cbn [fold_left]. unfold prepend at 1 2 3. rewrite append_assoc. reflexivity.
Qed.

(** X24. The markers lose nothing of the snippet: the code that
    [baseLang.Generate] renders for two questions under the same
    configuration is the same only if their snippets are the same. *)
Theorem addCodeMark_keeps_snippet l q q' :
  baseLang_generateCode l q [addCodeMark (lineComment l)]
  = baseLang_generateCode l q' [addCodeMark (lineComment l)] ->
  GetCodeSnippet q (slug l) = GetCodeSnippet q' (slug l).
Proof.
  unfold baseLang_generateCode, baseLang_Slug. cbn [fold_left].
  unfold addCodeMark. intros H.
  do 5 (apply append_inj_l in H). apply append_inj_r in H. exact H.
Qed.

End ModifierFacts.

(** ** The editor [vim] *)

Section VimFacts.

Variable cfg : Config.
Variable runCmd :
  string -> list string -> list string -> World -> option error * World.

Local Abbreviation vim_args := (vim_args cfg).
Local Abbreviation vim_Open := (vim_Open cfg runCmd).
Local Abbreviation vim_OpenMulti := (vim_OpenMulti cfg runCmd).

(** The loop that fills [paths] writes the path of every file at its
    index. *)
Lemma vim_fill_paths_from (fs : list FileOutput) (pre : list string) :
  vim_fill_paths (length pre) fs (pre ++ replicate (length fs) EmptyString)
  = pre ++ map Path fs.
Proof.
  revert pre. induction fs as [|f rest IH]; intros pre; [reflexivity|].
  cbn [vim_fill_paths length replicate map].
  rewrite insert_middle.
  replace (pre ++ Path f :: replicate (length rest) EmptyString)
    with ((pre ++ [Path f]) ++ replicate (length rest) EmptyString)
    by (rewrite <- app_assoc; reflexivity).
  replace (S (length pre)) with (length (pre ++ [Path f]))
    by (rewrite length_app; simpl; lia).
  rewrite IH, <- app_assoc. reflexivity.
Qed.

Lemma vim_fill_paths_map (fs : list FileOutput) :
  vim_fill_paths 0 fs (replicate (length fs) EmptyString) = map Path fs.
Proof. exact (vim_fill_paths_from fs []). Qed.

Lemma vim_OpenMulti_eq (fs : list FileOutput) w :
  vim_OpenMulti fs w =
  match fs with
  | [] => (Panics "runtime error: index out of range [0] with length 0",
           hclog_Info "opening files with vim" [] w)
  | f :: _ =>
      let '(err, w') :=
        runCmd "vim" (vim_args f) (map Path fs)
               (hclog_Info "opening files with vim" [] w) in
      (Returns err, w')
  end.
Proof.
  unfold vim_OpenMulti. rewrite vim_fill_paths_map.
  destruct fs as [|f rest]; reflexivity.
Qed.

(** X25. [OpenMulti] starts vim once, on the paths of all the files in
    their order, with the arguments that [Open] gives it; on a single file
    it does what [Open] does. *)
Theorem vim_OpenMulti_paths (f : FileOutput) (rest : list FileOutput) w :
  vim_OpenMulti (f :: rest) w
  = (Returns (fst (runCmd "vim" (vim_args f) (Path f :: map Path rest)
                          (hclog_Info "opening files with vim" [] w))),
     snd (runCmd "vim" (vim_args f) (Path f :: map Path rest)
                 (hclog_Info "opening files with vim" [] w)))
  /\ vim_OpenMulti [f] w = (Returns (fst (vim_Open f w)), snd (vim_Open f w)).
Proof.
  rewrite !vim_OpenMulti_eq. unfold vim_Open. cbn [map].
  split; destruct (runCmd _ _ _ _); reflexivity.
Qed.

(** X26. [OpenMulti] without a file panics: it writes its log entry, then
    the index [files[0]] is out of range, and vim is not started, whatever
    [runCmd] would do. *)
Theorem vim_OpenMulti_no_file w :
  vim_OpenMulti [] w
  = (Panics "runtime error: index out of range [0] with length 0",
     hclog_Info "opening files with vim" [] w).
Proof. rewrite vim_OpenMulti_eq. reflexivity. Qed.

(** The arguments of vim do not depend on the file: they are [-p],
    followed by the search for the code-begin marker when one is
    configured; so vim is told to jump to the marker exactly when the
    marker is not empty. *)
Lemma vim_args_search (f f' : FileOutput) :
  vim_args f = vim_args f'
  /\ (CodeBeginMark (Code cfg) = EmptyString -> vim_args f = ["-p"])
  /\ (CodeBeginMark (Code cfg) <> EmptyString ->
      vim_args f = ["-p"; "+/" +:+ CodeBeginMark (Code cfg)]).
Proof.
  unfold vim_args. split; [reflexivity|]. split.
  - intros ->. reflexivity.
  - intros Hne. apply String.eqb_neq in Hne. rewrite Hne. reflexivity.
Qed.

End VimFacts.

(** ** From the dispatch to the editor *)

Section GenerateThenOpen.

Variable cfg : Config.
Variable viper : Viper.
Variable filepath_Join : list string -> string.
Variable unicode_ToLower : UnicodeToLower.
Variable SupportedLangs : list Generator.
Variable runCmd :
  string -> list string -> list string -> World -> option error * World.

Local Abbreviation GetGenerator := (GetGenerator
    unicode_ToLower SupportedLangs).
Local Abbreviation Generate := (Generate cfg viper filepath_Join
    unicode_ToLower SupportedLangs).
Local Abbreviation absPath := (absPath cfg filepath_Join).
Local Abbreviation outDir := (outDir cfg viper).
Local Abbreviation lang := (Lang (Code cfg)).

Lemma Forall2_shape_paths gen dir (fs fs' : list FileOutput) :
  Forall2 (fun f f' => Path f' = absPath dir f
                       /\ Content f' = Content f
                       /\ GeneratorRef f' = Some gen) fs fs' ->
  map Path fs' = map (absPath dir) fs.
Proof.
  induction 1 as [|f f' fs fs' (Hp & _ & _) _ IH]; [reflexivity|].
  simpl. rewrite Hp, IH. reflexivity.
Qed.

(** X27. The outputs of [Generate] handed to [OpenMulti]: vim is started
    on the absolute paths of the generator's outputs, in the generator's
    order, whether or not the files were written; and when the generator
    returned no output, [Generate] succeeds with none and [OpenMulti]
    panics. *)
Theorem Generate_then_OpenMulti q gen w0 w1 tr1 fs w2 :
  GetGenerator lang = Some gen ->
  GetCodeSnippet q (Generator_Slug gen) <> EmptyString ->
  bootstrap gen (w0, []) = (Ok tt, (w1, tr1)) ->
  Generator_Generate gen q w1 = (Ok fs, w2) ->
  exists fs' w' calls,
    Generate q (w0, []) = (Ok fs', (w', calls))
    /\ vim_OpenMulti cfg runCmd fs' w' =
       match fs with
       | [] => (Panics "runtime error: index out of range [0] with length 0",
                hclog_Info "opening files with vim" [] w')
       | f :: _ =>
           (Returns (fst (runCmd "vim" (vim_args cfg f)
                                 (map (absPath outDir) fs)
                                 (hclog_Info "opening files with vim" [] w'))),
            snd (runCmd "vim" (vim_args cfg f) (map (absPath outDir) fs)
                        (hclog_Info "opening files with vim" [] w')))
       end.
Proof.
  intros Hgen Hsnip Hboot Hfs.
  destruct (Generate_write_phase cfg viper filepath_Join
      unicode_ToLower SupportedLangs
              q gen _ _ _ _ _ _ Hgen Hsnip Hboot Hfs)
    as (fs' & w3 & Hw & _ & _ & HG).
  eexists fs', _, _. split; [exact HG|].
  pose proof (writeEach_shape cfg viper filepath_Join _ _ _ _ _ _ _ _ Hw)
    as Hshape.
  rewrite vim_OpenMulti_eq.
  rewrite (Forall2_shape_paths _ _ _ _ Hshape).
  destruct Hshape as [|f f' fs fs' _ _]; [reflexivity|].
  destruct (runCmd _ _ _ _); reflexivity.
Qed.

End GenerateThenOpen.

(** * The further properties on the sample project *)

(** X1 on the sample project: ["python"] resolves, and so does ["p"]. *)
Lemma GetGenerator_shorter_identifier_witness :
  exists g' pre post,
    GetGenerator ex_unicode (ex_langs (ex_cfg "py") ex_viper) "p" = Some g'
    /\ ex_langs (ex_cfg "py") ex_viper
       = pre ++ baseLang_Generator (ex_cfg "py") ex_viper ex_python :: post
    /\ (g' = baseLang_Generator (ex_cfg "py") ex_viper ex_python \/ In g' pre).
Proof.
  apply (GetGenerator_shorter_identifier
      ex_unicode (ex_langs (ex_cfg "py") ex_viper)
           "python" "p" (baseLang_Generator (ex_cfg "py") ex_viper ex_python));
    reflexivity.
Defined.

(** X2 on the sample project: C registered behind C++ is never resolved. *)
Lemma GetGenerator_shadowed_witness :
  GetGenerator ex_unicode [baseLang_Generator (ex_cfg "c") ex_viper ex_cpp;
                baseLang_Generator (ex_cfg "c") ex_viper ex_c] "C"
  = GetGenerator
      ex_unicode [baseLang_Generator (ex_cfg "c") ex_viper ex_cpp] "C".
Proof.
  apply (GetGenerator_shadowed ex_unicode
           [baseLang_Generator (ex_cfg "c") ex_viper ex_cpp] []
           (baseLang_Generator (ex_cfg "c") ex_viper ex_c) "C").
  - apply Exists_cons_hd. reflexivity.
  - apply Exists_cons_hd. reflexivity.
Defined.

(** X3 on the sample project: ["GOLANG"] is the Go generator. *)
Lemma GetGenerator_own_names_witness :
  GetGenerator ex_unicode (ex_langs (ex_cfg "go") ex_viper) "GOLANG"
  = Some (ex_golang_Generator (ex_cfg "go") ex_viper).
Proof.
  destruct (GetGenerator_own_names ex_unicode
              [baseLang_Generator (ex_cfg "go") ex_viper ex_python]
              [baseLang_Generator (ex_cfg "go") ex_viper ex_rust]
              (ex_golang_Generator (ex_cfg "go") ex_viper) "GOLANG"
              (or_introl eq_refl)) as [_ H].
  apply H. repeat constructor.
Defined.

(** X4 on the sample project: Kotlin, registered as ["Kt"] and ["Kotlin"],
    is not found under ["kotlin"]. *)
Lemma GetGenerator_upper_case_names_witness :
  GetGenerator
      ex_unicode [baseLang_Generator (ex_cfg "kotlin") ex_viper ex_python;
                baseLang_Generator (ex_cfg "kotlin") ex_viper ex_Kotlin] "kotlin"
  = GetGenerator
      ex_unicode [baseLang_Generator (ex_cfg "kotlin") ex_viper ex_python]
                 "kotlin".
Proof.
  apply (GetGenerator_upper_case_names ex_unicode
           [baseLang_Generator (ex_cfg "kotlin") ex_viper ex_python] []
           (baseLang_Generator (ex_cfg "kotlin") ex_viper ex_Kotlin) "kotlin").
  - vm_compute. lia.
  - vm_compute. lia.
  - discriminate.
Defined.

(** X5 on the sample project: a new file in the empty project. *)
Lemma tryWrite_created_on_disk_witness :
  files (snd (tryWrite ex_viper "/p/py/solution.py" "pass" ex_world))
    !! "/p/py/solution.py" = Some "pass".
Proof.
  apply (tryWrite_created_on_disk ex_viper "/p/py/solution.py" "pass" ex_world).
  reflexivity.
Defined.

(** X6 on the sample project: overwriting the solution leaves the library
    alone. *)
Lemma tryWrite_frame_witness :
  files (snd (tryWrite ex_viper_yes "/p/go/solution.go" "package other"
                       ex_world_solved)) !! ex_libPath
  = Some "package testutils"
  /\ saved_state (snd (tryWrite ex_viper_yes "/p/go/solution.go"
                                "package other" ex_world_solved)) = ex_state.
Proof.
  destruct (tryWrite_frame ex_viper_yes "/p/go/solution.go" "package other"
              ex_world_solved ex_libPath) as (H1 & H2 & _).
  - discriminate.
  - split; [rewrite H1; reflexivity|rewrite H2; reflexivity].
Defined.

(** X7 on the sample project: the user declines. *)
Lemma tryWrite_declines_only_on_no_witness :
  is_Some (files ex_world_declining !! "/p/go/solution.go")
  /\ viper_GetBool ex_viper "yes" = false
  /\ terminal ex_world_declining = Answer false :: terminal ex_world_solved
  /\ files ex_world_solved = files ex_world_declining
  /\ hclog ex_world_solved = hclog ex_world_declining.
Proof.
  apply (tryWrite_declines_only_on_no ex_viper "/p/go/solution.go"
           "package other" ex_world_declining ex_world_solved).
  reflexivity.
Defined.

(** X8 on the sample project: with "assume yes" the reply of the user is
    left at the terminal. *)
Lemma tryWrite_prompts_only_on_conflict_witness :
  terminal (snd (tryWrite ex_viper_yes "/p/go/solution.go" "package other"
                          ex_world_declining)) = [Answer false]
  /\ fst (tryWrite ex_viper_yes "/p/go/solution.go" "package other"
                   ex_world_declining) <> Ok false.
Proof.
  destruct (tryWrite_prompts_only_on_conflict ex_viper_yes "/p/go/solution.go"
              "package other" ex_world_declining) as [_ H].
  destruct (H (or_introl eq_refl)) as [H1 H2].
  split; [rewrite H1; reflexivity|exact H2].
Defined.

(** X10 on the sample project: the same file written twice. *)
Lemma tryWrite_again_assume_yes_witness :
  fst (tryWrite ex_viper_yes "/p/py/solution.py" "pass"
         (snd (tryWrite ex_viper_yes "/p/py/solution.py" "pass" ex_world)))
  = Ok true
  /\ files (snd (tryWrite ex_viper_yes "/p/py/solution.py" "pass"
              (snd (tryWrite ex_viper_yes "/p/py/solution.py" "pass" ex_world))))
     = files (snd (tryWrite ex_viper_yes "/p/py/solution.py" "pass" ex_world)).
Proof.
  destruct (tryWrite_again_assume_yes ex_viper_yes "/p/py/solution.py" "pass"
              ex_world
              (snd (tryWrite ex_viper_yes "/p/py/solution.py" "pass" ex_world))
              (fst (tryWrite ex_viper_yes "/p/py/solution.py" "pass"
                 (snd (tryWrite ex_viper_yes "/p/py/solution.py" "pass"
                                ex_world))))
              (snd (tryWrite ex_viper_yes "/p/py/solution.py" "pass"
                 (snd (tryWrite ex_viper_yes "/p/py/solution.py" "pass"
                                ex_world))))
              eq_refl eq_refl eq_refl) as (_ & _ & H).
  split; [reflexivity|]. apply H. reflexivity.
Defined.

(** X11 on the sample project: the second write finds no one at the
    terminal, and the file keeps its content. *)
Lemma tryWrite_written_file_protected_witness :
  (exists rest,
      terminal (snd (tryWrite ex_viper "/p/py/solution.py" "pass" ex_world))
      = Answer true :: rest)
  \/ files (snd (tryWrite ex_viper "/p/py/solution.py" "other"
               (snd (tryWrite ex_viper "/p/py/solution.py" "pass" ex_world))))
       !! "/p/py/solution.py" = Some "pass".
Proof.
  apply (tryWrite_written_file_protected ex_viper "/p/py/solution.py" "pass"
           ex_world
           (snd (tryWrite ex_viper "/p/py/solution.py" "pass" ex_world))
           "other"
           (fst (tryWrite ex_viper "/p/py/solution.py" "other"
              (snd (tryWrite ex_viper "/p/py/solution.py" "pass" ex_world))))
           (snd (tryWrite ex_viper "/p/py/solution.py" "other"
              (snd (tryWrite ex_viper "/p/py/solution.py" "pass" ex_world)))));
    reflexivity.
Defined.

(** X12 on the sample project: the Go library cannot be installed. *)
Lemma Generate_failure_writes_nothing_witness :
  writes_of (snd (snd (Generate (ex_cfg "go") ex_viper join_slash ex_unicode
                         (ex_langs (ex_cfg "go") ex_viper) ex_question
                         (ex_world_nolib, [])))) = []
  /\ (forall st,
        ~ In (CallSaveState st)
             (snd (snd (Generate (ex_cfg "go") ex_viper join_slash ex_unicode
                          (ex_langs (ex_cfg "go") ex_viper) ex_question
                          (ex_world_nolib, []))))).
Proof.
  apply (Generate_failure_writes_nothing (ex_cfg "go") ex_viper join_slash
      ex_unicode
           (ex_langs (ex_cfg "go") ex_viper) ex_question ex_world_nolib
           "permission denied" ex_world_nolib).
  reflexivity.
Defined.

(** X13 on the sample project: the file name of the question cannot be
    formatted, and the Go generator fails. *)
Lemma Generate_generator_error_witness :
  Generate (ex_cfg "go") ex_viper join_slash
      ex_unicode (ex_langs (ex_cfg "go") ex_viper)
           ex_question_unnamed (ex_world_solved, [])
  = (Err "template: no such field",
     (ex_world_solved, [CallCheckLibrary] ++ [CallGenerate])).
Proof.
  apply (Generate_generator_error (ex_cfg "go") ex_viper join_slash ex_unicode
           (ex_langs (ex_cfg "go") ex_viper) ex_question_unnamed
           (ex_golang_Generator (ex_cfg "go") ex_viper)
           ex_world_solved ex_world_solved [CallCheckLibrary]
           "template: no such field" ex_world_solved).
  - reflexivity.
  - discriminate.
  - reflexivity.
  - reflexivity.
Defined.

(** X14 on the sample project: Python is not testable, and the library of
    Go is installed in the solved project. *)
Lemma Generate_skips_bootstrap_witness :
  (exists r w' rest,
      Generate (ex_cfg "py") ex_viper join_slash ex_unicode
               (ex_langs (ex_cfg "py") ex_viper) ex_question (ex_world, [])
      = (r, (w', CallGenerate :: rest))
      /\ ~ In CallCheckLibrary rest /\ ~ In CallGenerateLibrary rest)
  /\ (exists r w' rest,
        Generate (ex_cfg "go") ex_viper_yes join_slash ex_unicode
                 (ex_langs (ex_cfg "go") ex_viper_yes) ex_question
                 (ex_world_solved, [])
        = (r, (w', CallCheckLibrary :: CallGenerate :: rest))
        /\ ~ In CallCheckLibrary rest /\ ~ In CallGenerateLibrary rest).
Proof.
  split.
  - destruct (Generate_skips_bootstrap (ex_cfg "py") ex_viper join_slash
      ex_unicode
                (ex_langs (ex_cfg "py") ex_viper) ex_question
                (baseLang_Generator (ex_cfg "py") ex_viper ex_python) ex_world)
      as [H _]; [reflexivity|discriminate|].
    destruct (H eq_refl) as (r & w' & rest & HG & H1 & H2 & _).
    exists r, w', rest. split; [exact HG|]. split; assumption.
  - destruct (Generate_skips_bootstrap (ex_cfg "go") ex_viper_yes join_slash
      ex_unicode
                (ex_langs (ex_cfg "go") ex_viper_yes) ex_question
                (ex_golang_Generator (ex_cfg "go") ex_viper_yes)
                ex_world_solved)
      as [_ H]; [reflexivity|discriminate|].
    destruct (H ex_golang_Testable ex_world_solved eq_refl eq_refl)
      as (r & w' & rest & HG & H1 & H2 & _).
    exists r, w', rest. split; [exact HG|]. split; assumption.
Defined.

(** X15 on the sample project: the two outputs of the Go generator. *)
Lemma Generate_outputs_shape_witness :
  exists fs' w' calls,
    Generate (ex_cfg "go") ex_viper_yes join_slash ex_unicode
             (ex_langs (ex_cfg "go") ex_viper_yes) ex_question
             (ex_world_solved, [])
    = (Ok fs', (w', calls))
    /\ map Path fs' = ["/p/go/solution.go"; "/p/go/solution_test.go"]
    /\ Forall (fun f' =>
                 GeneratorRef f'
                 = Some (ex_golang_Generator (ex_cfg "go") ex_viper_yes)) fs'.
Proof.
  assert (Hgen : GetGenerator ex_unicode (ex_langs (ex_cfg "go") ex_viper_yes)
                              (Lang (Code (ex_cfg "go")))
                 = Some (ex_golang_Generator (ex_cfg "go") ex_viper_yes))
    by reflexivity.
  assert (Hsnip : GetCodeSnippet ex_question
                    (Generator_Slug (ex_golang_Generator (ex_cfg "go") ex_viper_yes))
                  <> EmptyString) by discriminate.
  edestruct (Generate_outputs_shape (ex_cfg "go") ex_viper_yes join_slash
      ex_unicode
               (ex_langs (ex_cfg "go") ex_viper_yes) ex_question
               (ex_golang_Generator (ex_cfg "go") ex_viper_yes)
               ex_world_solved ex_world_solved [CallCheckLibrary] _
               ex_world_solved Hgen Hsnip eq_refl eq_refl)
    as (fs' & w' & calls & HG & Hshape).
  exists fs', w', calls. split; [exact HG|].
  inversion Hshape as [|f1 f1' r1 r1' (Hp1 & _ & Hg1) Hs1]; subst.
  inversion Hs1 as [|f2 f2' r2 r2' (Hp2 & _ & Hg2) Hs2]; subst.
  inversion Hs2; subst.
  split.
  - simpl. rewrite Hp1, Hp2. reflexivity.
  - repeat constructor; assumption.
Defined.

(** X16 on the sample project: generating the Go solution leaves the
    library file alone. *)
Lemma Generate_disk_frame_witness :
  files (fst (snd (Generate (ex_cfg "go") ex_viper_yes join_slash ex_unicode
                            (ex_langs (ex_cfg "go") ex_viper_yes) ex_question
                            (ex_world_solved, []))))
    !! ex_libPath
  = Some "package testutils".
Proof.
  assert (Hgen : GetGenerator ex_unicode (ex_langs (ex_cfg "go") ex_viper_yes)
                              (Lang (Code (ex_cfg "go")))
                 = Some (ex_golang_Generator (ex_cfg "go") ex_viper_yes))
    by reflexivity.
  assert (Hsnip : GetCodeSnippet ex_question
                    (Generator_Slug (ex_golang_Generator (ex_cfg "go") ex_viper_yes))
                  <> EmptyString) by discriminate.
  rewrite (Generate_disk_frame (ex_cfg "go") ex_viper_yes join_slash ex_unicode
             (ex_langs (ex_cfg "go") ex_viper_yes) ex_question
             (ex_golang_Generator (ex_cfg "go") ex_viper_yes)
             ex_world_solved ex_world_solved [CallCheckLibrary] _
             ex_world_solved ex_libPath Hgen Hsnip eq_refl eq_refl).
  - reflexivity.
  - vm_compute. intuition discriminate.
Defined.

(** X17 on the sample project: in the project whose solution file cannot
    be written, the one output flagged as created, the test file, is on
    disk. *)
Lemma Generate_created_on_disk_witness :
  exists fs' w' calls,
    Generate (ex_cfg "go") ex_viper join_slash
        ex_unicode (ex_langs (ex_cfg "go") ex_viper)
             ex_question (ex_world_readonly, [])
    = (Ok fs', (w', calls))
    /\ map Created fs' = [false; true]
    /\ forall f', In f' fs' -> Created f' = true ->
                  files w' !! Path f' = Some (Content f').
Proof.
  assert (Hgen : GetGenerator ex_unicode (ex_langs (ex_cfg "go") ex_viper)
                              (Lang (Code (ex_cfg "go")))
                 = Some (ex_golang_Generator (ex_cfg "go") ex_viper))
    by reflexivity.
  assert (Hsnip : GetCodeSnippet ex_question
                    (Generator_Slug (ex_golang_Generator (ex_cfg "go") ex_viper))
                  <> EmptyString) by discriminate.
  edestruct (Generate_created_on_disk (ex_cfg "go") ex_viper join_slash
      ex_unicode
               (ex_langs (ex_cfg "go") ex_viper) ex_question
               (ex_golang_Generator (ex_cfg "go") ex_viper)
               ex_world_readonly ex_world_readonly [CallCheckLibrary] _
               ex_world_readonly Hgen Hsnip eq_refl eq_refl)
    as (fs' & w' & calls & HG & Hdisk).
  - repeat constructor.
  - repeat constructor; vm_compute; intuition discriminate.
  - exists fs', w', calls. split; [exact HG|]. split; [|exact Hdisk].
    assert (Hfs : fst (Generate (ex_cfg "go") ex_viper join_slash ex_unicode
                         (ex_langs (ex_cfg "go") ex_viper) ex_question
                         (ex_world_readonly, [])) = Ok fs')
      by (rewrite HG; reflexivity).
    vm_compute in Hfs. injection Hfs as <-. reflexivity.
Defined.

(** X18 on the sample project: Python in the empty project. *)
Lemma Generate_baseLang_new_file_witness :
  exists out w',
    Generate (ex_cfg "py") ex_viper join_slash
        ex_unicode (ex_langs (ex_cfg "py") ex_viper)
             ex_question (ex_world, [])
    = (Ok [out],
       (w', [CallGenerate; CallTryWrite (Path out) (Content out);
             CallSaveState
               (mkState (mkLastGeneratedQuestion "two-sum" "1" "python3"))]))
    /\ Path out = "/p/py/solution.py"
    /\ Created out = true
    /\ files w' !! "/p/py/solution.py" = Some (Content out).
Proof.
  assert (Hsnip : GetCodeSnippet ex_question (slug ex_python) <> EmptyString)
    by discriminate.
  pose proof (Generate_baseLang_new_file (ex_cfg "py") ex_viper join_slash
      ex_unicode
                (ex_langs (ex_cfg "py") ex_viper) ex_python ex_question
                ex_world "solution" eq_refl Hsnip eq_refl eq_refl eq_refl
                eq_refl) as HG.
  eexists _, _. split; [exact HG|].
  split; [reflexivity|]. split; [reflexivity|].
  cbn [config_SaveState set_saved_state hclog_Info add_log set_files files].
  apply lookup_insert_eq.
Defined.

(** X19 on the sample project: the file name of the question cannot be
    formatted. *)
Lemma Generate_baseLang_filename_error_witness :
  Generate (ex_cfg "py") ex_viper join_slash
      ex_unicode (ex_langs (ex_cfg "py") ex_viper)
           ex_question_unnamed (ex_world, [])
  = (Err "template: no such field", (ex_world, [CallGenerate])).
Proof.
  apply (Generate_baseLang_filename_error (ex_cfg "py") ex_viper join_slash
      ex_unicode
           (ex_langs (ex_cfg "py") ex_viper) ex_python ex_question_unnamed
           ex_world "template: no such field").
  - reflexivity.
  - discriminate.
  - reflexivity.
Defined.

(** X20 on the sample project: with "assume yes" the solution is
    overwritten and the reply of the user stays at the terminal. *)
Lemma Generate_assume_yes_never_prompts_witness :
  terminal (fst (snd (Generate (ex_cfg "go") ex_viper_yes join_slash ex_unicode
                               (ex_langs (ex_cfg "go") ex_viper_yes)
                               ex_question (ex_world_declining, []))))
  = [Answer false].
Proof.
  assert (Hgen : GetGenerator ex_unicode (ex_langs (ex_cfg "go") ex_viper_yes)
                              (Lang (Code (ex_cfg "go")))
                 = Some (ex_golang_Generator (ex_cfg "go") ex_viper_yes))
    by reflexivity.
  assert (Hsnip : GetCodeSnippet ex_question
                    (Generator_Slug (ex_golang_Generator (ex_cfg "go") ex_viper_yes))
                  <> EmptyString) by discriminate.
  rewrite (Generate_assume_yes_never_prompts (ex_cfg "go") ex_viper_yes
             join_slash
                 ex_unicode (ex_langs (ex_cfg "go") ex_viper_yes) ex_question
             (ex_golang_Generator (ex_cfg "go") ex_viper_yes)
             ex_world_declining ex_world_declining [CallCheckLibrary] _
             ex_world_declining eq_refl Hgen Hsnip eq_refl eq_refl).
  reflexivity.
Defined.

(** X24 on the sample project: two questions that render the same code
    have the same Python snippet. *)
Lemma addCodeMark_keeps_snippet_witness :
  GetCodeSnippet ex_question "python3"
  = GetCodeSnippet ex_question_unnamed "python3".
Proof.
  apply (addCodeMark_keeps_snippet (ex_cfg "py") ex_python ex_question
           ex_question_unnamed).
  reflexivity.
Defined.

(** X27 on the sample project: the two Go files are opened in vim, at the
    code-begin marker. *)
Lemma Generate_then_OpenMulti_witness :
  exists fs' w' calls,
    Generate (ex_cfg "go") ex_viper_yes join_slash ex_unicode
             (ex_langs (ex_cfg "go") ex_viper_yes) ex_question
             (ex_world_solved, [])
    = (Ok fs', (w', calls))
    /\ vim_OpenMulti (ex_cfg "go") ex_runCmd fs' w'
       = (Returns None,
          hclog_Info "exec"
            [("cmd",
              "vim -p +/@lc code=begin /p/go/solution.go /p/go/solution_test.go")]
            (hclog_Info "opening files with vim" [] w')).
Proof.
  assert (Hgen : GetGenerator ex_unicode (ex_langs (ex_cfg "go") ex_viper_yes)
                              (Lang (Code (ex_cfg "go")))
                 = Some (ex_golang_Generator (ex_cfg "go") ex_viper_yes))
    by reflexivity.
  assert (Hsnip : GetCodeSnippet ex_question
                    (Generator_Slug (ex_golang_Generator (ex_cfg "go") ex_viper_yes))
                  <> EmptyString) by discriminate.
  edestruct (Generate_then_OpenMulti (ex_cfg "go") ex_viper_yes join_slash
      ex_unicode
               (ex_langs (ex_cfg "go") ex_viper_yes) ex_runCmd ex_question
               (ex_golang_Generator (ex_cfg "go") ex_viper_yes)
               ex_world_solved ex_world_solved [CallCheckLibrary] _
               ex_world_solved Hgen Hsnip eq_refl eq_refl)
    as (fs' & w' & calls & HG & Hvim).
  exists fs', w', calls. split; [exact HG|].
  rewrite Hvim. reflexivity.
Defined.
